(** * The lwIP bridge of the TCP/IP driver (lwip/src/rostcp.c)

    A shallow embedding of the connection bridge: the per-connection packet
    queue and its read operation, the LibTCP*Callback operation bodies that
    run on the tcpip thread, the blocking LibTCP* wrappers around them, and
    the Internal*EventHandler callbacks lwIP invokes.

    Conventions.
    - C unsigned integers are [Z] with the wrap-around written out ([UINT],
      [u16_t]).
    - A pointer that the code tests against NULL is an [option].
    - ASSERT does not stop the code: the model goes on as a free build does
      and records which assertion did not hold.
    - Spin locks and reference counts are left out: every body below runs
      to its end before another one starts. *)

From Stdlib Require Import ZArith List Bool Lia.
From Stdlib Require String.
Import ListNotations.
Open Scope Z_scope.

(** ** Machine integers *)

Definition UINT (z : Z) : Z := z mod 2 ^ 32.
Definition u16_t (z : Z) : Z := z mod 2 ^ 16.

(** The MIN macro: [((a) < (b) ? (a) : (b))]. *)
Definition MIN (a b : Z) : Z := if a <? b then a else b.

Definition NTSTATUS := Z.

(** lwIP's error codes.  [ERR_OK] is the one whose value is zero, so that
    [if (Error)] reads [Error <> ERR_OK]. *)
Inductive err_t :=
| ERR_OK | ERR_MEM | ERR_BUF | ERR_TIMEOUT | ERR_RTE | ERR_INPROGRESS
| ERR_VAL | ERR_WOULDBLOCK | ERR_USE | ERR_ISCONN | ERR_ABRT | ERR_RST
| ERR_CLSD | ERR_CONN | ERR_ARG | ERR_IF.

Definition err_t_eq_dec (a b : err_t) : {a = b} + {a <> b}.
Proof. decide equality. Defined.

Definition err_eqb (a b : err_t) : bool :=
  if err_t_eq_dec a b then true else false.

(** The states of a pcb, in the order of [tcp_state_str]. *)
Inductive tcp_state :=
| CLOSED | LISTEN | SYN_SENT | SYN_RCVD | ESTABLISHED | FIN_WAIT_1
| FIN_WAIT_2 | CLOSE_WAIT | CLOSING | LAST_ACK | TIME_WAIT.

(** What the bridge takes from the rest of the driver and from the kernel
    headers, none of it part of the sources: the status codes it names and
    the translation of lwIP errors, declared at the top of rostcp.c. *)
Class NtDriver := {
  STATUS_SUCCESS : NTSTATUS;
  STATUS_PENDING : NTSTATUS;
  STATUS_FILE_CLOSED : NTSTATUS;
  STATUS_WAIT_0 : NTSTATUS;
  TCPTranslateError : err_t -> NTSTATUS
}.

(** ** Received data *)

(** A pbuf (chain) is the bytes it holds; [tot_len], a u16_t field, is
    their number. *)
Definition pbuf := list Byte.byte.

Definition tot_len (p : pbuf) : Z := Z.of_nat (length p).

(** Modelled from the spec: lwIP's pbuf_copy_partial is not part of the
    sources.  It takes up to [len] bytes of [p] starting at [offset], both
    u16_t, stores them through the destination pointer and returns how many
    it copied. *)
Definition pbuf_copy_partial (p : pbuf) (len offset : Z) : Z * list Byte.byte :=
  let bytes := firstn (Z.to_nat (u16_t len)) (skipn (Z.to_nat (u16_t offset)) p) in
  (Z.of_nat (length bytes), bytes).

(** QUEUE_ENTRY: the queued pbuf and how much of it was already read. *)
Record QUEUE_ENTRY := mkQueueEntry {
  p : pbuf;
  Offset : Z
}.

(** The fields of CONNECTION_ENDPOINT the bridge uses.  [SocketContext]
    holds the lwIP pcb of the connection, NULL once it is severed. *)
Definition PTCP_PCB := nat.

Record CONNECTION_ENDPOINT := mkConnection {
  SocketContext : option PTCP_PCB;
  PacketQueue : list QUEUE_ENTRY;
  ReceiveShutdown : bool;
  ReceiveShutdownStatus : NTSTATUS;
  SendShutdown : bool
}.

Definition set_SocketContext (c : CONNECTION_ENDPOINT) (v : option PTCP_PCB) :=
  mkConnection v (PacketQueue c) (ReceiveShutdown c) (ReceiveShutdownStatus c)
               (SendShutdown c).

Definition set_PacketQueue (c : CONNECTION_ENDPOINT) (q : list QUEUE_ENTRY) :=
  mkConnection (SocketContext c) q (ReceiveShutdown c) (ReceiveShutdownStatus c)
               (SendShutdown c).

Definition set_ReceiveShutdown (c : CONNECTION_ENDPOINT) (b : bool) (s : NTSTATUS) :=
  mkConnection (SocketContext c) (PacketQueue c) b s (SendShutdown c).

Definition set_SendShutdown (c : CONNECTION_ENDPOINT) (b : bool) :=
  mkConnection (SocketContext c) (PacketQueue c) (ReceiveShutdown c)
               (ReceiveShutdownStatus c) b.

(** ** The packet queue *)

Module Queue.

(** LibTCPEnqueuePacket, given the entry the lookaside list handed out: the
    entry takes the pbuf and offset 0 and goes to the tail.  The code stores
    through the entry without testing it, so it has no other path: with no
    entry to hand out it faults at the first store, and nothing below is
    about that case. *)
Definition LibTCPEnqueuePacket (c : CONNECTION_ENDPOINT) (p : pbuf) : CONNECTION_ENDPOINT :=
  let qp := {| p := p; Offset := 0 |} in
  set_PacketQueue c (PacketQueue c ++ [qp]).

(** LibTCPDequeuePacket: NULL on an empty list, else the removed head. *)
Definition LibTCPDequeuePacket (q : list QUEUE_ENTRY) : option QUEUE_ENTRY * list QUEUE_ENTRY :=
  match q with
  | [] => (None, q)
  | Entry :: rest => (Some Entry, rest)
  end.

(** The four ASSERTs of LibTCPGetDataFromConnectionQueue. *)
Inductive Assertion :=
| ReadLength_nonzero        (* ASSERT(ReadLength != 0)       *)
| Copied_is_ReadLength      (* ASSERT(Copied == ReadLength)  *)
| RecvLen_is_zero           (* ASSERT(RecvLen == 0)          *)
| Received_nonzero.         (* ASSERT of Received being nonzero *)

Definition ASSERT (cond : bool) (a : Assertion) (failed : list Assertion) :=
  if cond then failed else failed ++ [a].

(** The locals of LibTCPGetDataFromConnectionQueue while its loop runs.
    [rd_RecvBuffer] is what was stored through RecvBuffer so far,
    [rd_Status] is [None] until Status is assigned, [rd_Released] the pbufs
    handed to pbuf_free_callback. *)
Record ReadState := mkRead {
  rd_Queue : list QUEUE_ENTRY;
  rd_RecvLen : Z;
  rd_RecvBuffer : list Byte.byte;
  rd_Received : Z;
  rd_Status : option NTSTATUS;
  rd_Released : list pbuf;
  rd_Failed : list Assertion
}.

Section Read.
Context {nt : NtDriver}.

(** One pass through the body of the while loop, for the dequeued [qp] and
    the list [Q] it was taken from, up to the test of RecvLen. *)
Definition read_body (qp : QUEUE_ENTRY) (Q : list QUEUE_ENTRY) (s : ReadState) : ReadState :=
  let PayloadLength := UINT (tot_len (p qp) - Offset qp) in
  let Offset0 := Offset qp in
  let ReadLength := MIN PayloadLength (rd_RecvLen s) in
  let failed := ASSERT (negb (ReadLength =? 0)) ReadLength_nonzero (rd_Failed s) in
  let saved := negb (ReadLength =? PayloadLength) in
  let Q' := if saved
            then {| p := p qp; Offset := UINT (Offset qp + ReadLength) |} :: Q
            else Q in
  let '(Copied, bytes) := pbuf_copy_partial (p qp) ReadLength Offset0 in
  let failed := ASSERT (Copied =? ReadLength) Copied_is_ReadLength failed in
  let RecvLen := UINT (rd_RecvLen s - ReadLength) in
  let Received := UINT (rd_Received s + ReadLength) in
  let released := if saved then rd_Released s else rd_Released s ++ [p qp] in
  let failed := if saved then ASSERT (RecvLen =? 0) RecvLen_is_zero failed else failed in
  let failed := ASSERT (negb (Received =? 0)) Received_nonzero failed in
  {| rd_Queue := Q';
     rd_RecvLen := RecvLen;
     rd_RecvBuffer := rd_RecvBuffer s ++ bytes;
     rd_Received := Received;
     rd_Status := Some STATUS_SUCCESS;
     rd_Released := released;
     rd_Failed := failed |}.

(** [while ((qp = LibTCPDequeuePacket(Connection)) != NULL) { ...;
    if (!RecvLen) break; }].  [None] when the fuel runs out. *)
Fixpoint read_loop (fuel : nat) (s : ReadState) : option ReadState :=
  match fuel with
  | O => None
  | S fuel' =>
      match LibTCPDequeuePacket (rd_Queue s) with
      | (None, _) => Some s
      | (Some qp, Q) =>
          let s' := read_body qp Q s in
          if rd_RecvLen s' =? 0 then Some s' else read_loop fuel' s'
      end
  end.

(** What a read hands back: the returned status, [*Received], the bytes put
    in the caller's buffer, the connection afterwards, the pbufs released
    and the assertions that did not hold. *)
Record ReadResult := mkResult {
  Status : NTSTATUS;
  Received : Z;
  RecvBuffer : list Byte.byte;
  Connection : CONNECTION_ENDPOINT;
  Released : list pbuf;
  Failed : list Assertion
}.

(** LibTCPGetDataFromConnectionQueue.  The loop is given one round per
    queued entry and one more; [None] stands for a run that does not end
    within them or ends with Status never assigned. *)
Definition LibTCPGetDataFromConnectionQueue (c : CONNECTION_ENDPOINT) (RecvLen : Z)
  : option ReadResult :=
  let Received0 := 0 in
  match PacketQueue c with
  | _ :: _ =>
      match read_loop (S (length (PacketQueue c)))
                      (mkRead (PacketQueue c) (UINT RecvLen) [] Received0 None [] []) with
      | Some s =>
          match rd_Status s with
          | Some st =>
              Some (mkResult st (rd_Received s) (rd_RecvBuffer s)
                             (set_PacketQueue c (rd_Queue s)) (rd_Released s) (rd_Failed s))
          | None => None
          end
      | None => None
      end
  | [] =>
      let st := if ReceiveShutdown c then ReceiveShutdownStatus c else STATUS_PENDING in
      Some (mkResult st Received0 [] c [] [])
  end.

End Read.

End Queue.

(** ** The bridge *)

Module Bridge.

(** The endpoint the world below holds is the only one the model follows;
    a non-NULL [PCONNECTION_ENDPOINT] points at it. *)
Inductive PCONNECTION_ENDPOINT := Connection_ptr.

(** C truth of an [int]. *)
Definition truth (i : Z) : bool := negb (i =? 0).

(** The raw-API calls the bridge makes on lwIP.  The handler a
    registration installs is fixed by the code, so it is not an argument:
    tcp_err installs InternalErrorEventHandler, tcp_recv
    InternalRecvEventHandler, tcp_sent InternalSendEventHandler,
    tcp_accept InternalAcceptEventHandler and tcp_connect
    InternalConnectEventHandler. *)
Inductive lwip_call :=
| c_tcp_new
| c_tcp_arg (pcb : PTCP_PCB) (arg : option PCONNECTION_ENDPOINT)
| c_tcp_err (pcb : PTCP_PCB)
| c_tcp_recv (pcb : PTCP_PCB)
| c_tcp_sent (pcb : PTCP_PCB)
| c_tcp_accept (pcb : PTCP_PCB)
| c_set_reuseaddr (pcb : PTCP_PCB)
| c_tcp_bind (pcb : PTCP_PCB) (ipaddr port : Z)
| c_tcp_listen_with_backlog (pcb : PTCP_PCB) (backlog : Z)
| c_tcp_connect (pcb : PTCP_PCB) (ipaddr port : Z)
| c_tcp_write (pcb : PTCP_PCB) (data : list Byte.byte) (len flags : Z)
| c_tcp_output (pcb : PTCP_PCB)
| c_tcp_shutdown (pcb : PTCP_PCB) (shut_rx shut_tx : Z)
| c_tcp_close (pcb : PTCP_PCB)
| c_tcp_abort (pcb : PTCP_PCB)
| c_tcp_recved (pcb : PTCP_PCB) (len : Z)
| c_pbuf_free (p : pbuf).

(** lwIP itself, which the bridge only calls: its state, what the bridge
    reads from a pcb, how a call changes the state and what it returns, and
    the constants of its headers. *)
Class LwIP := {
  Engine : Type;
  pcb_state : Engine -> PTCP_PCB -> tcp_state;
  snd_buf : Engine -> PTCP_PCB -> Z;
  lwip_step : Engine -> lwip_call -> Engine;
  lwip_err : Engine -> lwip_call -> err_t;
  lwip_pcb : Engine -> lwip_call -> option PTCP_PCB;
  TCP_WRITE_FLAG_COPY : Z;
  TCP_WRITE_FLAG_MORE : Z;
  ntohs : Z -> Z
}.

(** The notifications to the upper layer of the driver, each for the
    endpoint of the model. *)
Inductive Notification :=
| TCPFinEventHandler (err : err_t)
| TCPRecvEventHandler
| TCPSendEventHandler (space : Z)
| TCPConnectEventHandler (err : err_t).

Inductive Event :=
| Called (c : lwip_call)
| Notified (n : Notification).

(** The request a blocking call hands to the tcpip thread.  The members of
    the Input and Output unions are laid side by side. *)
Record lwip_callback_msg := mkMsg {
  msg_Event : bool;
  Input_Arg : option PCONNECTION_ENDPOINT;
  Input_IpAddress : Z;
  Input_Port : Z;
  Input_Backlog : Z;
  Input_Data : list Byte.byte;
  Input_DataLength : Z;
  Input_shut_rx : Z;
  Input_shut_tx : Z;
  Input_Callback : Z;
  Output_Error : err_t;
  Output_Information : Z;
  Output_NewPcb : option PTCP_PCB
}.

Definition KeInitializeEvent (m : lwip_callback_msg) : lwip_callback_msg :=
  mkMsg false (Input_Arg m) (Input_IpAddress m) (Input_Port m) (Input_Backlog m)
        (Input_Data m) (Input_DataLength m) (Input_shut_rx m) (Input_shut_tx m)
        (Input_Callback m) (Output_Error m) (Output_Information m) (Output_NewPcb m).

Definition KeSetEvent (m : lwip_callback_msg) : lwip_callback_msg :=
  mkMsg true (Input_Arg m) (Input_IpAddress m) (Input_Port m) (Input_Backlog m)
        (Input_Data m) (Input_DataLength m) (Input_shut_rx m) (Input_shut_tx m)
        (Input_Callback m) (Output_Error m) (Output_Information m) (Output_NewPcb m).

Definition set_Error (m : lwip_callback_msg) (e : err_t) : lwip_callback_msg :=
  mkMsg (msg_Event m) (Input_Arg m) (Input_IpAddress m) (Input_Port m) (Input_Backlog m)
        (Input_Data m) (Input_DataLength m) (Input_shut_rx m) (Input_shut_tx m)
        (Input_Callback m) e (Output_Information m) (Output_NewPcb m).

Definition set_Information (m : lwip_callback_msg) (n : Z) : lwip_callback_msg :=
  mkMsg (msg_Event m) (Input_Arg m) (Input_IpAddress m) (Input_Port m) (Input_Backlog m)
        (Input_Data m) (Input_DataLength m) (Input_shut_rx m) (Input_shut_tx m)
        (Input_Callback m) (Output_Error m) n (Output_NewPcb m).

Definition set_NewPcb (m : lwip_callback_msg) (q : option PTCP_PCB) : lwip_callback_msg :=
  mkMsg (msg_Event m) (Input_Arg m) (Input_IpAddress m) (Input_Port m) (Input_Backlog m)
        (Input_Data m) (Input_DataLength m) (Input_shut_rx m) (Input_shut_tx m)
        (Input_Callback m) (Output_Error m) (Output_Information m) q.

(** The inputs the wrappers store before they queue the request. *)
Definition Input_Socket (m : lwip_callback_msg) (arg : option PCONNECTION_ENDPOINT) :=
  mkMsg (msg_Event m) arg (Input_IpAddress m) (Input_Port m) (Input_Backlog m)
        (Input_Data m) (Input_DataLength m) (Input_shut_rx m) (Input_shut_tx m)
        (Input_Callback m) (Output_Error m) (Output_Information m) (Output_NewPcb m).

Definition Input_Address (m : lwip_callback_msg) (ipaddr port : Z) :=
  mkMsg (msg_Event m) (Input_Arg m) ipaddr port (Input_Backlog m)
        (Input_Data m) (Input_DataLength m) (Input_shut_rx m) (Input_shut_tx m)
        (Input_Callback m) (Output_Error m) (Output_Information m) (Output_NewPcb m).

Definition Input_Listen (m : lwip_callback_msg) (backlog : Z) :=
  mkMsg (msg_Event m) (Input_Arg m) (Input_IpAddress m) (Input_Port m) backlog
        (Input_Data m) (Input_DataLength m) (Input_shut_rx m) (Input_shut_tx m)
        (Input_Callback m) (Output_Error m) (Output_Information m) (Output_NewPcb m).

Definition Input_Send (m : lwip_callback_msg) (data : list Byte.byte) (len : Z) :=
  mkMsg (msg_Event m) (Input_Arg m) (Input_IpAddress m) (Input_Port m) (Input_Backlog m)
        data len (Input_shut_rx m) (Input_shut_tx m)
        (Input_Callback m) (Output_Error m) (Output_Information m) (Output_NewPcb m).

Definition Input_Shutdown (m : lwip_callback_msg) (rx tx : Z) :=
  mkMsg (msg_Event m) (Input_Arg m) (Input_IpAddress m) (Input_Port m) (Input_Backlog m)
        (Input_Data m) (Input_DataLength m) rx tx
        (Input_Callback m) (Output_Error m) (Output_Information m) (Output_NewPcb m).

Definition Input_Close (m : lwip_callback_msg) (callback : Z) :=
  mkMsg (msg_Event m) (Input_Arg m) (Input_IpAddress m) (Input_Port m) (Input_Backlog m)
        (Input_Data m) (Input_DataLength m) (Input_shut_rx m) (Input_shut_tx m)
        callback (Output_Error m) (Output_Information m) (Output_NewPcb m).

(** What the caller's thread meets in one blocking call: what the
    lookaside list hands out (NULL, or a request with whatever it held
    before), whether the tcpip thread ran the queued callback before the
    caller went on, and what KeWaitForMultipleObjects returned. *)
Record Schedule := mkSchedule {
  ExAllocateFromNPagedLookasideList : option lwip_callback_msg;
  tcpip_ran : bool;
  KeWaitForMultipleObjects : NTSTATUS
}.

Section Bridge.
Context {nt : NtDriver} {lwip : LwIP}.

(** The endpoint, lwIP, and everything done to lwIP and told to the upper
    layer so far, oldest first. *)
Record World := mkWorld {
  Conn : CONNECTION_ENDPOINT;
  Eng : Engine;
  Trace : list Event
}.

(** *** State passing *)

Definition M (A : Type) : Type := World -> A * World.

Definition ret {A} (a : A) : M A := fun w => (a, w).

Definition bind {A B} (m : M A) (k : A -> M B) : M B :=
  fun w => let (a, w') := m w in k a w'.

Notation "x <- m ;; k" := (bind m (fun x => k))
  (at level 61, m at next level, right associativity).
Notation "m ;; k" := (bind m (fun _ => k))
  (at level 61, right associativity).

Definition connection : M CONNECTION_ENDPOINT := fun w => (Conn w, w).

Definition update (f : CONNECTION_ENDPOINT -> CONNECTION_ENDPOINT) : M unit :=
  fun w => (tt, mkWorld (f (Conn w)) (Eng w) (Trace w)).

Definition read_pcb_state (pcb : PTCP_PCB) : M tcp_state :=
  fun w => (pcb_state (Eng w) pcb, w).

(** [tcp_sndbuf(pcb)], a u16_t. *)
Definition tcp_sndbuf (pcb : PTCP_PCB) : M Z :=
  fun w => (u16_t (snd_buf (Eng w) pcb), w).

Definition after_call (w : World) (c : lwip_call) : World :=
  mkWorld (Conn w) (lwip_step (Eng w) c) (Trace w ++ [Called c]).

Definition call (c : lwip_call) : M unit := fun w => (tt, after_call w c).
Definition call_err (c : lwip_call) : M err_t :=
  fun w => (lwip_err (Eng w) c, after_call w c).
Definition call_pcb (c : lwip_call) : M (option PTCP_PCB) :=
  fun w => (lwip_pcb (Eng w) c, after_call w c).

Definition notify (n : Notification) : M unit :=
  fun w => (tt, mkWorld (Conn w) (Eng w) (Trace w ++ [Notified n])).

Definition when (b : bool) (m : M unit) : M unit := if b then m else ret tt.

(** *** Operation bodies, run on the tcpip thread *)

(** LibTCPEmptyQueue: while the list is not empty, remove the head and
    free its pbuf. *)
Fixpoint EmptyQueue_loop (q : list QUEUE_ENTRY) : M unit :=
  match q with
  | [] => ret tt
  | qp :: rest =>
      update (fun c => set_PacketQueue c rest) ;;
      call (c_pbuf_free (p qp)) ;;
      EmptyQueue_loop rest
  end.

Definition LibTCPEmptyQueue : M unit :=
  c <- connection ;; EmptyQueue_loop (PacketQueue c).

Definition LibTCPSocketCallback (msg : lwip_callback_msg) : M lwip_callback_msg :=
  NewPcb <- call_pcb c_tcp_new ;;
  let msg := set_NewPcb msg NewPcb in
  match NewPcb with
  | Some pcb =>
      call (c_tcp_arg pcb (Input_Arg msg)) ;;
      call (c_tcp_err pcb)
  | None => ret tt
  end ;;
  ret (KeSetEvent msg).

Definition LibTCPBindCallback (msg : lwip_callback_msg) : M lwip_callback_msg :=
  c <- connection ;;
  match SocketContext c with
  | None => ret (KeSetEvent (set_Error msg ERR_CLSD))
  | Some pcb =>
      call (c_set_reuseaddr pcb) ;;
      e <- call_err (c_tcp_bind pcb (Input_IpAddress msg) (ntohs (Input_Port msg))) ;;
      ret (KeSetEvent (set_Error msg e))
  end.

Definition LibTCPListenCallback (msg : lwip_callback_msg) : M lwip_callback_msg :=
  c <- connection ;;
  match SocketContext c with
  | None => ret (KeSetEvent (set_NewPcb msg None))
  | Some pcb =>
      NewPcb <- call_pcb (c_tcp_listen_with_backlog pcb (Input_Backlog msg)) ;;
      match NewPcb with
      | Some l => call (c_tcp_accept l)
      | None => ret tt
      end ;;
      ret (KeSetEvent (set_NewPcb msg NewPcb))
  end.

(** LibTCPSendCallback.  The code reads tcp_sndbuf(pcb), a field of the
    pcb, up to three times with no call on lwIP in between; it is read once
    here. *)
Definition LibTCPSendCallback (msg : lwip_callback_msg) : M lwip_callback_msg :=
  c <- connection ;;
  match SocketContext c with
  | None => ret (KeSetEvent (set_Error msg ERR_CLSD))
  | Some pcb =>
      if SendShutdown c then ret (KeSetEvent (set_Error msg ERR_CLSD))
      else
        let SendFlags := TCP_WRITE_FLAG_COPY in
        let SendLength := UINT (Input_DataLength msg) in
        sndbuf <- tcp_sndbuf pcb ;;
        if sndbuf =? 0 then ret (KeSetEvent (set_Error msg ERR_INPROGRESS))
        else
          let '(SendLength, SendFlags) :=
            if sndbuf <? SendLength
            then (sndbuf, Z.lor SendFlags TCP_WRITE_FLAG_MORE)
            else (SendLength, SendFlags) in
          e <- call_err (c_tcp_write pcb (Input_Data msg) SendLength SendFlags) ;;
          let msg := set_Error msg e in
          if err_eqb e ERR_OK then
            call (c_tcp_output pcb) ;;
            ret (KeSetEvent (set_Information msg SendLength))
          else if err_eqb e ERR_MEM then
            ret (KeSetEvent (set_Error msg ERR_INPROGRESS))
          else ret (KeSetEvent msg)
  end.

Definition LibTCPConnectCallback (msg : lwip_callback_msg) : M lwip_callback_msg :=
  c <- connection ;;
  match SocketContext c with
  | None => ret (KeSetEvent (set_Error msg ERR_CLSD))
  | Some pcb =>
      call (c_tcp_recv pcb) ;;
      call (c_tcp_sent pcb) ;;
      e <- call_err (c_tcp_connect pcb (Input_IpAddress msg) (ntohs (Input_Port msg))) ;;
      ret (KeSetEvent (set_Error msg (if err_eqb e ERR_OK then ERR_INPROGRESS else e)))
  end.

Definition LibTCPShutdownCallback (msg : lwip_callback_msg) : M lwip_callback_msg :=
  c <- connection ;;
  match SocketContext c with
  | None => ret (KeSetEvent (set_Error msg ERR_CLSD))
  | Some pcb =>
      st <- read_pcb_state pcb ;;
      when (match st with CLOSE_WAIT => true | _ => false end)
           (update (fun c => set_SocketContext c None)) ;;
      e <- call_err (c_tcp_shutdown pcb (Input_shut_rx msg) (Input_shut_tx msg)) ;;
      (if negb (err_eqb e ERR_OK) then
         update (fun c => set_SocketContext c (Some pcb))
       else
         when (truth (Input_shut_rx msg))
              (update (fun c => set_ReceiveShutdown c true STATUS_FILE_CLOSED)) ;;
         when (truth (Input_shut_tx msg))
              (update (fun c => set_SendShutdown c true))) ;;
      ret (KeSetEvent (set_Error msg e))
  end.

(** LibTCPCloseCallback.  The local [pcb] is read from SocketContext on
    entry; emptying the queue leaves that field alone, so it is the pointer
    tested after it. *)
Definition LibTCPCloseCallback (msg : lwip_callback_msg) : M lwip_callback_msg :=
  LibTCPEmptyQueue ;;
  c <- connection ;;
  match SocketContext c with
  | None => ret (KeSetEvent (set_Error msg ERR_OK))
  | Some pcb =>
      update (fun c => set_SocketContext c None) ;;
      st <- read_pcb_state pcb ;;
      e <- match st with
           | CLOSED | LISTEN | SYN_SENT =>
               e <- call_err (c_tcp_close pcb) ;;
               when (err_eqb e ERR_OK && truth (Input_Callback msg))
                    (notify (TCPFinEventHandler ERR_CLSD)) ;;
               ret e
           | _ =>
               c <- connection ;;
               if SendShutdown c && ReceiveShutdown c then
                 call (c_tcp_abort pcb) ;;
                 ret ERR_OK
               else
                 call_err (c_tcp_close pcb)
           end ;;
      when (negb (err_eqb e ERR_OK))
           (update (fun c => set_SocketContext c (Some pcb))) ;;
      ret (KeSetEvent (set_Error msg e))
  end.

(** *** The blocking calls *)

(** WaitForEventSafely: TRUE when the wait ended on the caller's own
    event (STATUS_WAIT_0), FALSE otherwise. *)
Definition WaitForEventSafely (s : Schedule) : bool :=
  KeWaitForMultipleObjects s =? STATUS_WAIT_0.

(** tcpip_callback_with_block: the callback is queued for the tcpip
    thread; the schedule says whether it has run when the caller goes on. *)
Definition tcpip_callback_with_block (s : Schedule)
    (cb : lwip_callback_msg -> M lwip_callback_msg) (msg : lwip_callback_msg)
  : M lwip_callback_msg :=
  if tcpip_ran s then cb msg else ret msg.

Definition LibTCPSocket (s : Schedule) (arg : option PCONNECTION_ENDPOINT)
  : M (option PTCP_PCB) :=
  match ExAllocateFromNPagedLookasideList s with
  | Some msg =>
      let msg := Input_Socket (KeInitializeEvent msg) arg in
      msg <- tcpip_callback_with_block s LibTCPSocketCallback msg ;;
      ret (if WaitForEventSafely s then Output_NewPcb msg else None)
  | None => ret None
  end.

Definition LibTCPBind (s : Schedule) (ipaddr port : Z) : M err_t :=
  match ExAllocateFromNPagedLookasideList s with
  | Some msg =>
      let msg := Input_Address (KeInitializeEvent msg) ipaddr (u16_t port) in
      msg <- tcpip_callback_with_block s LibTCPBindCallback msg ;;
      ret (if WaitForEventSafely s then Output_Error msg else ERR_CLSD)
  | None => ret ERR_MEM
  end.

Definition LibTCPListen (s : Schedule) (backlog : Z) : M (option PTCP_PCB) :=
  match ExAllocateFromNPagedLookasideList s with
  | Some msg =>
      let msg := Input_Listen (KeInitializeEvent msg) (backlog mod 2 ^ 8) in
      msg <- tcpip_callback_with_block s LibTCPListenCallback msg ;;
      ret (if WaitForEventSafely s then Output_NewPcb msg else None)
  | None => ret None
  end.

(** LibTCPSend.  The second component is what is stored through [sent];
    [None] when nothing is stored. *)
Definition LibTCPSend (s : Schedule) (dataptr : list Byte.byte) (len : Z) (safe : Z)
  : M (err_t * option Z) :=
  match ExAllocateFromNPagedLookasideList s with
  | Some msg =>
      let msg := Input_Send (KeInitializeEvent msg) dataptr (u16_t len) in
      msg <- (if truth safe then LibTCPSendCallback msg
              else tcpip_callback_with_block s LibTCPSendCallback msg) ;;
      let r := if WaitForEventSafely s then Output_Error msg else ERR_CLSD in
      let sent := if err_eqb r ERR_OK then UINT (Output_Information msg) else 0 in
      ret (r, Some sent)
  | None => ret (ERR_MEM, None)
  end.

Definition LibTCPConnect (s : Schedule) (ipaddr port : Z) : M err_t :=
  match ExAllocateFromNPagedLookasideList s with
  | Some msg =>
      let msg := Input_Address (KeInitializeEvent msg) ipaddr (u16_t port) in
      msg <- tcpip_callback_with_block s LibTCPConnectCallback msg ;;
      ret (if WaitForEventSafely s then Output_Error msg else ERR_CLSD)
  | None => ret ERR_MEM
  end.

Definition LibTCPShutdown (s : Schedule) (shut_rx shut_tx : Z) : M err_t :=
  match ExAllocateFromNPagedLookasideList s with
  | Some msg =>
      let msg := Input_Shutdown (KeInitializeEvent msg) shut_rx shut_tx in
      msg <- tcpip_callback_with_block s LibTCPShutdownCallback msg ;;
      ret (if WaitForEventSafely s then Output_Error msg else ERR_CLSD)
  | None => ret ERR_MEM
  end.

Definition LibTCPClose (s : Schedule) (safe callback : Z) : M err_t :=
  match ExAllocateFromNPagedLookasideList s with
  | Some msg =>
      let msg := Input_Close (KeInitializeEvent msg) callback in
      msg <- (if truth safe then LibTCPCloseCallback msg
              else tcpip_callback_with_block s LibTCPCloseCallback msg) ;;
      ret (if WaitForEventSafely s then Output_Error msg else ERR_CLSD)
  | None => ret ERR_MEM
  end.

(** *** The callbacks lwIP makes *)

Definition InternalSendEventHandler (arg : option PCONNECTION_ENDPOINT)
    (pcb : PTCP_PCB) (space : Z) : M err_t :=
  match arg with
  | None => ret ERR_OK
  | Some _ => notify (TCPSendEventHandler (u16_t space)) ;; ret ERR_OK
  end.

Definition InternalRecvEventHandler (arg : option PCONNECTION_ENDPOINT)
    (pcb : PTCP_PCB) (p : option pbuf) (err : err_t) : M err_t :=
  match arg with
  | None =>
      match p with
      | Some p => call (c_pbuf_free p)
      | None => ret tt
      end ;;
      ret ERR_OK
  | Some _ =>
      match p with
      | Some p =>
          update (fun c => Queue.LibTCPEnqueuePacket c p) ;;
          call (c_tcp_recved pcb (tot_len p)) ;;
          notify TCPRecvEventHandler
      | None =>
          if err_eqb err ERR_OK then
            update (fun c => set_ReceiveShutdown c true STATUS_SUCCESS) ;;
            c <- connection ;;
            match SocketContext c with
            | Some _ => notify TCPRecvEventHandler
            | None => notify (TCPFinEventHandler ERR_CLSD)
            end
          else ret tt
      end ;;
      ret ERR_OK
  end.

Definition InternalConnectEventHandler (arg : option PCONNECTION_ENDPOINT)
    (pcb : PTCP_PCB) (err : err_t) : M err_t :=
  match arg with
  | None => ret ERR_OK
  | Some _ => notify (TCPConnectEventHandler err) ;; ret ERR_OK
  end.

Definition InternalErrorEventHandler (arg : option PCONNECTION_ENDPOINT)
    (err : err_t) : M unit :=
  match arg with
  | None => ret tt
  | Some _ =>
      c <- connection ;;
      match PacketQueue c with
      | [] => notify (TCPFinEventHandler err)
      | _ :: _ =>
          update (fun c => set_ReceiveShutdown c true (TCPTranslateError err)) ;;
          notify TCPRecvEventHandler
      end
  end.

(** *** What emptying the queue amounts to *)

(** The pbuf_free calls that release a queue, head first. *)
Definition queue_frees (q : list QUEUE_ENTRY) : list lwip_call :=
  map (fun qp => c_pbuf_free (p qp)) q.

(** The world once every queued entry was removed and its pbuf freed. *)
Definition emptied (w : World) : World :=
  mkWorld (set_PacketQueue (Conn w) [])
          (fold_left lwip_step (queue_frees (PacketQueue (Conn w))) (Eng w))
          (Trace w ++ map Called (queue_frees (PacketQueue (Conn w)))).

(** What a blocking call hands back to its caller: an lwIP error code or
    a pcb pointer. *)
Inductive Returned :=
| returned_err (e : err_t)
| returned_pcb (pcb : option PTCP_PCB).

(** *** Runs *)

(** What can happen to the endpoint, one body at a time: an operation body
    on the tcpip thread, a callback made by lwIP, or a read of the queue by
    a receiving thread.  A data arrival ([Event_Recv] with a pbuf and a
    non-NULL argument) is one for which the lookaside list handed out a
    queue entry. *)
Inductive Operation :=
| Body_Socket (msg : lwip_callback_msg)
| Body_Bind (msg : lwip_callback_msg)
| Body_Listen (msg : lwip_callback_msg)
| Body_Send (msg : lwip_callback_msg)
| Body_Connect (msg : lwip_callback_msg)
| Body_Shutdown (msg : lwip_callback_msg)
| Body_Close (msg : lwip_callback_msg)
| Event_Send (arg : option PCONNECTION_ENDPOINT) (pcb : PTCP_PCB) (space : Z)
| Event_Recv (arg : option PCONNECTION_ENDPOINT) (pcb : PTCP_PCB)
             (p : option pbuf) (err : err_t)
| Event_Connect (arg : option PCONNECTION_ENDPOINT) (pcb : PTCP_PCB) (err : err_t)
| Event_Error (arg : option PCONNECTION_ENDPOINT) (err : err_t)
| Read (RecvLen : Z).

(** The world after one of them.  A read changes the endpoint only; the
    pbufs it releases are in its result, not in the trace. *)
Definition step (op : Operation) (w : World) : World :=
  match op with
  | Body_Socket msg => snd (LibTCPSocketCallback msg w)
  | Body_Bind msg => snd (LibTCPBindCallback msg w)
  | Body_Listen msg => snd (LibTCPListenCallback msg w)
  | Body_Send msg => snd (LibTCPSendCallback msg w)
  | Body_Connect msg => snd (LibTCPConnectCallback msg w)
  | Body_Shutdown msg => snd (LibTCPShutdownCallback msg w)
  | Body_Close msg => snd (LibTCPCloseCallback msg w)
  | Event_Send arg pcb space => snd (InternalSendEventHandler arg pcb space w)
  | Event_Recv arg pcb p err => snd (InternalRecvEventHandler arg pcb p err w)
  | Event_Connect arg pcb err => snd (InternalConnectEventHandler arg pcb err w)
  | Event_Error arg err => snd (InternalErrorEventHandler arg err w)
  | Read RecvLen =>
      match Queue.LibTCPGetDataFromConnectionQueue (Conn w) RecvLen with
      | Some r => mkWorld (Queue.Connection r) (Eng w) (Trace w)
      | None => w
      end
  end.

Definition run (ops : list Operation) (w : World) : World :=
  fold_left (fun w op => step op w) ops w.

(** Between two states of the endpoint: no shutdown flag was cleared, and
    a pcb pointer found in the second was there in the first. *)
Definition never_reopened (c c' : CONNECTION_ENDPOINT) : Prop :=
  (ReceiveShutdown c = true -> ReceiveShutdown c' = true) /\
  (SendShutdown c = true -> SendShutdown c' = true) /\
  (forall pcb, SocketContext c' = Some pcb -> SocketContext c = Some pcb).

(** A callback lwIP makes with a NULL argument, as it does once the socket
    was closed. *)
Definition socket_closed (op : Operation) : Prop :=
  match op with
  | Event_Send None _ _ => True
  | Event_Recv None _ _ _ => True
  | Event_Connect None _ _ => True
  | Event_Error None _ => True
  | _ => False
  end.

(** The pbuf such a callback brings, to be freed. *)
Definition brought (op : Operation) : list pbuf :=
  match op with
  | Event_Recv _ _ (Some q) _ => [q]
  | _ => []
  end.

(** A data arrival as lwIP makes it: the pbuf holds at least one byte and
    no more than its u16_t length field counts. *)
Definition arrival_ok (op : Operation) : Prop :=
  match op with
  | Event_Recv _ _ (Some p) _ => 0 < tot_len p < 2 ^ 16
  | _ => True
  end.

End Bridge.

End Bridge.

(** ** Sample surroundings, for the closed examples *)

Module Sample.
Import Bridge.
Import String.

(** A driver instance with the numeric codes of the NT headers and a small
    error translation. *)
Definition nt : NtDriver := {|
  STATUS_SUCCESS := 0;
  STATUS_PENDING := 259;
  STATUS_FILE_CLOSED := 3221225768;
  STATUS_WAIT_0 := 0;
  TCPTranslateError := fun e =>
    match e with
    | ERR_OK => 0
    | ERR_RST => 3221226013
    | ERR_ABRT => 3221225787
    | ERR_CLSD => 3221225768
    | _ => 3221225473
    end
|}.

(** A scripted lwIP: every pcb is in state [s_state] with [s_sndbuf] bytes
    of send buffer, every call that returns an error code returns [s_err]
    and every call that returns a pcb returns [s_pcb]. *)
Record Scripted := mkScripted {
  s_state : tcp_state;
  s_sndbuf : Z;
  s_err : err_t;
  s_pcb : option PTCP_PCB
}.

Definition lwip : LwIP := {|
  Engine := Scripted;
  pcb_state := fun e _ => s_state e;
  snd_buf := fun e _ => s_sndbuf e;
  lwip_step := fun e _ => e;
  lwip_err := fun e _ => s_err e;
  lwip_pcb := fun e _ => s_pcb e;
  TCP_WRITE_FLAG_COPY := 1;
  TCP_WRITE_FLAG_MORE := 2;
  ntohs := fun n => Z.lor (Z.shiftl (Z.land n 255) 8) (Z.shiftr (Z.land n 65535) 8)
|}.

Definition bytes (s : String.string) : pbuf := String.list_byte_of_string s.

(** Ten bytes to send. *)
Definition ten_bytes : list Byte.byte := bytes "0123456789".

(** A blank request, as the lookaside list may hand it out. *)
Definition blank : lwip_callback_msg :=
  mkMsg false None 0 0 0 [] 0 0 0 0 ERR_OK 0 None.

(** The request completes: allocated, run, woken by its own event. *)
Definition completes : Schedule := mkSchedule (Some blank) true 0.

(** The termination event ends the wait before the callback has run. *)
Definition terminated : Schedule := mkSchedule (Some blank) false 1.

(** The lookaside list is exhausted. *)
Definition exhausted : Schedule := mkSchedule None false 0.

(** An open endpoint on pcb 1 with nothing queued. *)
Definition open : CONNECTION_ENDPOINT := mkConnection (Some 1%nat) [] false 0 false.

(** An endpoint on pcb 1 that was shut down in both directions. *)
Definition shut_both_ways : CONNECTION_ENDPOINT :=
  mkConnection (Some 1%nat) [] true 3221225768 true.

(** A fresh world around an endpoint, with the scripted lwIP. *)
Definition world (c : CONNECTION_ENDPOINT) (st : tcp_state) (sndbuf : Z) (e : err_t)
  : World (lwip := lwip) :=
  mkWorld (lwip := lwip) c (mkScripted st sndbuf e None) [].

(** An endpoint whose pcb pointer is NULL. *)
Definition severed : CONNECTION_ENDPOINT := mkConnection None [] false 0 false.

(** A world whose scripted lwIP hands out pcb 7 where a pcb is returned. *)
Definition world_with_pcb (c : CONNECTION_ENDPOINT) : World (lwip := lwip) :=
  mkWorld (lwip := lwip) c (mkScripted ESTABLISHED 0 ERR_OK (Some 7%nat)) [].

(** Ten bytes arrive, four are read, both directions are shut down, a send
    is tried, lwIP reports a reset and the connection is closed. *)
Definition a_run : list Operation :=
  [Event_Recv (Some Connection_ptr) 1%nat (Some ten_bytes) ERR_OK;
   Read 4;
   Body_Shutdown (Input_Shutdown blank 1 1);
   Body_Send (Input_Send blank ten_bytes 10);
   Event_Error (Some Connection_ptr) ERR_RST;
   Body_Close (Input_Close blank 0)].

(** Ten bytes arrive, four are read, both directions are shut down, a send
    is tried and lwIP reports a reset; the connection is left open. *)
Definition b_run : list Operation :=
  [Event_Recv (Some Connection_ptr) 1%nat (Some ten_bytes) ERR_OK;
   Read 4;
   Body_Shutdown (Input_Shutdown blank 1 1);
   Body_Send (Input_Send blank ten_bytes 10);
   Event_Error (Some Connection_ptr) ERR_RST].

(** Seven bytes. *)
Definition bytes_of_third : pbuf := bytes "1234567".

(** Callbacks for a socket that was closed: a sent notice, seven bytes, the
    peer's close, ten bytes, a connect result and an error. *)
Definition late_callbacks : list Operation :=
  [Event_Send None 1%nat 100;
   Event_Recv None 1%nat (Some bytes_of_third) ERR_OK;
   Event_Recv None 1%nat None ERR_OK;
   Event_Recv None 1%nat (Some ten_bytes) ERR_OK;
   Event_Connect None 1%nat ERR_OK;
   Event_Error None ERR_RST].

(** The queue after segments of 5, 3 and 7 bytes arrived in that order. *)
Definition three_segments : CONNECTION_ENDPOINT :=
  Queue.LibTCPEnqueuePacket
    (Queue.LibTCPEnqueuePacket
       (Queue.LibTCPEnqueuePacket open (bytes "HELLO"%string))
       (bytes "abc"%string))
    (bytes "1234567"%string).

End Sample.

(** * Properties *)

(** ** The packet queue *)

Module QueueFacts.
Import Queue.

(** The bytes of an entry not yet read, and those of a whole queue in
    arrival order. *)
Definition unread (qp : QUEUE_ENTRY) : list Byte.byte :=
  skipn (Z.to_nat (Offset qp)) (p qp).

Definition pending (q : list QUEUE_ENTRY) : list Byte.byte :=
  flat_map unread q.

(** An entry as the bridge can hold it: the offset within the pbuf, the
    length of the pbuf within what its u16_t field counts. *)
Definition entry_ok (qp : QUEUE_ENTRY) : Prop :=
  0 <= Offset qp <= tot_len (p qp) /\ tot_len (p qp) < 2 ^ 16.

(** An entry with at least one byte left to read. *)
Definition entry_live (qp : QUEUE_ENTRY) : Prop :=
  0 <= Offset qp < tot_len (p qp) /\ tot_len (p qp) < 2 ^ 16.

Section Facts.
Context {nt : NtDriver}.

Lemma UINT_small z : 0 <= z < 2 ^ 32 -> UINT z = z.
Proof. intros; unfold UINT; now apply Z.mod_small. Qed.

Lemma u16_t_small z : 0 <= z < 2 ^ 16 -> u16_t z = z.
Proof. intros; unfold u16_t; now apply Z.mod_small. Qed.

Lemma UINT_range z : 0 <= UINT z < 2 ^ 32.
Proof. unfold UINT; apply Z.mod_pos_bound; lia. Qed.

Lemma entry_live_ok qp : entry_live qp -> entry_ok qp.
Proof. unfold entry_live, entry_ok; lia. Qed.

Lemma unread_length qp :
  entry_ok qp -> Z.of_nat (length (unread qp)) = tot_len (p qp) - Offset qp.
Proof.
  unfold entry_ok, unread, tot_len; intros [H _].
  rewrite length_skipn; lia.
Qed.

Lemma read_loop_nil fuel s :
  rd_Queue s = [] -> read_loop (S fuel) s = Some s.
Proof. intros E; cbn [read_loop]; rewrite E; reflexivity. Qed.

Lemma read_loop_cons fuel s qp Q :
  rd_Queue s = qp :: Q ->
  read_loop (S fuel) s =
  if rd_RecvLen (read_body qp Q s) =? 0 then Some (read_body qp Q s)
  else read_loop fuel (read_body qp Q s).
Proof. intros E; cbn [read_loop]; rewrite E; reflexivity. Qed.

Lemma MIN_cases a b : (a < b /\ MIN a b = a) \/ (b <= a /\ MIN a b = b).
Proof. unfold MIN; destruct (Z.ltb_spec a b); [left | right]; split; trivial. Qed.

(** The loop goes round again only after it dropped the entry it took. *)
Lemma read_body_continues qp Q s :
  rd_RecvLen (read_body qp Q s) <> 0 -> rd_Queue (read_body qp Q s) = Q.
Proof.
  unfold read_body, pbuf_copy_partial; cbn.
  set (PL := UINT (tot_len (p qp) - Offset qp)).
  destruct (MIN_cases PL (rd_RecvLen s)) as [[_ ->] | [_ ->]].
  - rewrite Z.eqb_refl; reflexivity.
  - rewrite Z.sub_diag; intros H; now elim H.
Qed.

Lemma read_body_status qp Q s :
  rd_Status (read_body qp Q s) = Some STATUS_SUCCESS.
Proof. unfold read_body, pbuf_copy_partial; reflexivity. Qed.

(** The loop ends within one round per entry and one more, with Status
    assigned as soon as it went round once. *)
Lemma read_loop_total fuel : forall s,
  (length (rd_Queue s) < fuel)%nat ->
  exists s', read_loop fuel s = Some s' /\
    (rd_Queue s <> [] \/ rd_Status s = Some STATUS_SUCCESS ->
     rd_Status s' = Some STATUS_SUCCESS).
Proof.
  induction fuel as [|fuel IH]; intros s Hlen; [lia|].
  destruct (rd_Queue s) as [|qp Q] eqn:EQ.
  - rewrite (read_loop_nil _ _ EQ).
    exists s; split; [reflexivity|]. intros [H | H]; congruence.
  - rewrite (read_loop_cons _ _ _ _ EQ).
    destruct (rd_RecvLen (read_body qp Q s) =? 0) eqn:Ez.
    + eexists; split; [reflexivity|]. intros _; apply read_body_status.
    + apply Z.eqb_neq in Ez.
      destruct (IH (read_body qp Q s)) as (s' & Hs' & Hst).
      { rewrite (read_body_continues _ _ _ Ez). simpl in Hlen; lia. }
      exists s'; split; [exact Hs'|]. intros _; apply Hst; right.
      apply read_body_status.
Qed.

(** Assertions that failed stay recorded. *)
Lemma read_body_failed_grows qp Q s a :
  In a (rd_Failed s) -> In a (rd_Failed (read_body qp Q s)).
Proof.
  unfold read_body, pbuf_copy_partial, ASSERT; cbn; intros Ha.
  repeat match goal with
         | |- context [if ?b then _ else _] => destruct b
         end; repeat (apply in_or_app; left); exact Ha.
Qed.

Lemma read_loop_failed_grows fuel : forall s s' a,
  read_loop fuel s = Some s' -> In a (rd_Failed s) -> In a (rd_Failed s').
Proof.
  induction fuel as [|fuel IH]; intros s s' a; [discriminate|].
  destruct (rd_Queue s) as [|qp Q] eqn:EQ.
  - rewrite (read_loop_nil _ _ EQ). intros [= <-]; trivial.
  - rewrite (read_loop_cons _ _ _ _ EQ).
    destruct (rd_RecvLen (read_body qp Q s) =? 0).
    + intros [= <-]; apply read_body_failed_grows.
    + intros Hl Ha; eapply IH; eauto using read_body_failed_grows.
Qed.

(** One round on an entry that fits in what is left of the buffer: the
    entry is read to its end and dropped. *)
Lemma read_body_whole qp Q s :
  entry_ok qp -> 0 <= rd_RecvLen s < 2 ^ 32 ->
  0 <= rd_Received s -> rd_Received s + rd_RecvLen s < 2 ^ 32 ->
  tot_len (p qp) - Offset qp < rd_RecvLen s ->
  let s1 := read_body qp Q s in
  rd_Queue s1 = Q /\
  rd_RecvLen s1 = rd_RecvLen s - (tot_len (p qp) - Offset qp) /\
  rd_RecvBuffer s1 = rd_RecvBuffer s ++ unread qp /\
  rd_Received s1 = rd_Received s + (tot_len (p qp) - Offset qp) /\
  (Offset qp < tot_len (p qp) -> rd_Failed s1 = rd_Failed s).
Proof.
  intros Hok HR HRc Hsum Hlt.
  pose proof (unread_length qp Hok) as Hlen.
  destruct Hok as [Hoff Htot].
  unfold read_body, pbuf_copy_partial; cbn.
  rewrite (UINT_small (tot_len (p qp) - Offset qp)) by lia.
  set (PL := tot_len (p qp) - Offset qp) in *.
  destruct (MIN_cases PL (rd_RecvLen s)) as [[_ ->] | [? _]]; [|lia].
  rewrite Z.eqb_refl; cbn.
  rewrite (u16_t_small PL), (u16_t_small (Offset qp)) by lia.
  fold (unread qp).
  assert (Hall : firstn (Z.to_nat PL) (unread qp) = unread qp)
    by (apply firstn_all2; lia).
  rewrite Hall, !UINT_small by lia.
  repeat split; trivial.
  intros Hlive. unfold ASSERT.
  replace (Z.of_nat (length (unread qp)) =? PL) with true
    by (symmetry; apply Z.eqb_eq; lia).
  replace (PL =? 0) with false by (symmetry; apply Z.eqb_neq; lia).
  replace (rd_Received s + PL =? 0) with false
    by (symmetry; apply Z.eqb_neq; lia).
  reflexivity.
Qed.

(** One round on an entry that holds at least what is left of the buffer:
    the buffer is filled, and the entry goes back to the head with its new
    offset unless it was read to its end. *)
Lemma read_body_fills qp Q s :
  entry_ok qp -> 0 <= rd_RecvLen s < 2 ^ 32 ->
  0 <= rd_Received s -> rd_Received s + rd_RecvLen s < 2 ^ 32 ->
  rd_RecvLen s <= tot_len (p qp) - Offset qp ->
  let s1 := read_body qp Q s in
  rd_Queue s1 =
    (if rd_RecvLen s <? tot_len (p qp) - Offset qp
     then {| p := p qp; Offset := Offset qp + rd_RecvLen s |} :: Q else Q) /\
  rd_RecvLen s1 = 0 /\
  rd_RecvBuffer s1 = rd_RecvBuffer s ++ firstn (Z.to_nat (rd_RecvLen s)) (unread qp) /\
  rd_Received s1 = rd_Received s + rd_RecvLen s /\
  (0 < rd_RecvLen s -> rd_Failed s1 = rd_Failed s).
Proof.
  intros Hok HR HRc Hsum Hle.
  pose proof (unread_length qp Hok) as Hlen.
  destruct Hok as [Hoff Htot].
  unfold read_body, pbuf_copy_partial; cbn.
  rewrite (UINT_small (tot_len (p qp) - Offset qp)) by lia.
  set (PL := tot_len (p qp) - Offset qp) in *.
  set (R := rd_RecvLen s) in *.
  assert (HM : MIN PL R = R).
  { destruct (MIN_cases PL R) as [[? E] | [? E]]; rewrite E; lia. }
  rewrite HM.
  rewrite (u16_t_small R), (u16_t_small (Offset qp)) by lia.
  fold (unread qp).
  rewrite Z.sub_diag, (UINT_small 0), !UINT_small by lia.
  assert (Hcopied : Z.of_nat (length (firstn (Z.to_nat R) (unread qp))) = R)
    by (rewrite length_firstn; lia).
  rewrite Hcopied, Z.eqb_refl.
  destruct (Z.ltb_spec R PL) as [Hlt | Hge].
  - replace (R =? PL) with false by (symmetry; apply Z.eqb_neq; lia).
    cbn. repeat split; trivial.
    intros Hpos. unfold ASSERT.
    replace (R =? 0) with false by (symmetry; apply Z.eqb_neq; lia).
    replace (rd_Received s + R =? 0) with false
      by (symmetry; apply Z.eqb_neq; lia).
    rewrite ?Z.eqb_refl; reflexivity.
  - replace (R =? PL) with true by (symmetry; apply Z.eqb_eq; lia).
    cbn. repeat split; trivial.
    intros Hpos. unfold ASSERT.
    replace (R =? 0) with false by (symmetry; apply Z.eqb_neq; lia).
    replace (rd_Received s + R =? 0) with false
      by (symmetry; apply Z.eqb_neq; lia).
    rewrite ?Z.eqb_refl; reflexivity.
Qed.

Lemma pending_cons qp Q : pending (qp :: Q) = unread qp ++ pending Q.
Proof. reflexivity. Qed.

Lemma unread_advance qp n :
  0 <= Offset qp -> 0 <= n ->
  unread {| p := p qp; Offset := Offset qp + n |} = skipn (Z.to_nat n) (unread qp).
Proof.
  intros Ho Hn; unfold unread; cbn.
  rewrite skipn_skipn. f_equal; lia.
Qed.

(** What the loop does to a queue of well-formed entries: it takes the
    first [RecvLen] pending bytes, in order, and leaves the others. *)
Lemma read_loop_spec Q : forall fuel s,
  rd_Queue s = Q -> (length Q < fuel)%nat -> Forall entry_ok Q ->
  0 <= rd_RecvLen s < 2 ^ 32 ->
  0 <= rd_Received s -> rd_Received s + rd_RecvLen s < 2 ^ 32 ->
  exists s', read_loop fuel s = Some s' /\
    rd_RecvBuffer s' =
      rd_RecvBuffer s ++ firstn (Z.to_nat (rd_RecvLen s)) (pending Q) /\
    rd_Received s' =
      rd_Received s + Z.of_nat (length (firstn (Z.to_nat (rd_RecvLen s)) (pending Q))) /\
    pending (rd_Queue s') = skipn (Z.to_nat (rd_RecvLen s)) (pending Q) /\
    Forall entry_ok (rd_Queue s') /\
    (rd_Received s' = rd_Received s + rd_RecvLen s \/ rd_Queue s' = []) /\
    (Forall entry_live Q -> 0 < rd_RecvLen s -> rd_Failed s' = rd_Failed s).
Proof.
  induction Q as [|qp Q IH]; intros fuel s EQ Hfuel Hok HR HRc Hsum;
    (destruct fuel as [|fuel]; [simpl in Hfuel; lia|]).
  - rewrite (read_loop_nil _ _ EQ). exists s. rewrite EQ. cbn.
    rewrite firstn_nil, skipn_nil, app_nil_r. cbn.
    repeat split; auto; lia.
  - rewrite (read_loop_cons _ _ _ _ EQ).
    inversion Hok as [|? ? Hqp HQ]; subst.
    pose proof (unread_length qp Hqp) as Hlen.
    rewrite pending_cons.
    destruct (Z.lt_ge_cases (tot_len (p qp) - Offset qp) (rd_RecvLen s)) as [Hlt | Hge].
    + (* the entry is read whole and the loop goes on *)
      destruct (read_body_whole qp Q s Hqp HR HRc Hsum Hlt)
        as (E1 & E2 & E3 & E4 & E5).
      destruct Hqp as [Hoff Htot].
      replace (rd_RecvLen (read_body qp Q s) =? 0) with false
        by (symmetry; apply Z.eqb_neq; lia).
      destruct (IH fuel (read_body qp Q s)) as (s' & Hs' & B & Rc & P & O & D & F);
        try (rewrite ?E2, ?E4; lia); trivial.
      { simpl in Hfuel; lia. }
      exists s'. split; [exact Hs'|].
      assert (Hn : (Z.to_nat (rd_RecvLen s) - length (unread qp))%nat
                   = Z.to_nat (rd_RecvLen (read_body qp Q s))) by lia.
      rewrite firstn_app, skipn_app, Hn.
      rewrite (@firstn_all2 _ _ (unread qp)) by lia.
      rewrite (@skipn_all2 _ _ (unread qp)) by lia.
      rewrite length_app. cbn [app].
      repeat split.
      * rewrite B, E3, <- app_assoc; reflexivity.
      * rewrite Rc, E4. lia.
      * exact P.
      * exact O.
      * destruct D as [D | D]; [left | right; exact D]. rewrite D, E4, E2; lia.
      * intros Hlive Hpos. inversion Hlive as [|? ? [Hl _] HL]; subst.
        rewrite F; trivial; [apply E5; lia | lia].
    + (* the buffer is filled from this entry and the loop ends *)
      destruct (read_body_fills qp Q s Hqp HR HRc Hsum Hge)
        as (E1 & E2 & E3 & E4 & E5).
      destruct Hqp as [Hoff Htot].
      rewrite E2. cbn [Z.eqb].
      eexists; split; [reflexivity|].
      assert (Hn : (Z.to_nat (rd_RecvLen s) - length (unread qp))%nat = 0%nat) by lia.
      rewrite firstn_app, skipn_app, Hn. cbn [firstn skipn].
      rewrite app_nil_r, E1.
      repeat split.
      * exact E3.
      * rewrite E4, length_firstn. lia.
      * destruct (Z.ltb_spec (rd_RecvLen s) (tot_len (p qp) - Offset qp)).
        -- rewrite pending_cons, unread_advance by lia. reflexivity.
        -- rewrite (@skipn_all2 _ _ (unread qp)) by lia. reflexivity.
      * destruct (rd_RecvLen s <? tot_len (p qp) - Offset qp) eqn:El; trivial.
        apply Z.ltb_lt in El.
        constructor; trivial. unfold entry_ok; cbn. lia.
      * left; exact E4.
      * intros _ Hpos; apply E5; exact Hpos.
Qed.

(** A read of a non-empty queue of well-formed entries. *)
Lemma read_nonempty c RecvLen :
  PacketQueue c <> [] -> Forall entry_ok (PacketQueue c) ->
  0 <= RecvLen < 2 ^ 32 ->
  exists r, LibTCPGetDataFromConnectionQueue c RecvLen = Some r /\
    Status r = STATUS_SUCCESS /\
    RecvBuffer r = firstn (Z.to_nat RecvLen) (pending (PacketQueue c)) /\
    Received r = Z.of_nat (length (RecvBuffer r)) /\
    Connection r = set_PacketQueue c (PacketQueue (Connection r)) /\
    pending (PacketQueue (Connection r)) =
      skipn (Z.to_nat RecvLen) (pending (PacketQueue c)) /\
    Forall entry_ok (PacketQueue (Connection r)) /\
    (Received r = RecvLen \/ PacketQueue (Connection r) = []) /\
    (Forall entry_live (PacketQueue c) -> 0 < RecvLen -> Failed r = []).
Proof.
  intros Hne Hok HR.
  unfold LibTCPGetDataFromConnectionQueue.
  destruct (PacketQueue c) as [|qp Q] eqn:EQ; [congruence|].
  set (s0 := mkRead (qp :: Q) (UINT RecvLen) [] 0 None [] []).
  destruct (read_loop_spec (qp :: Q) (S (length (qp :: Q))) s0)
    as (s' & Hs' & B & Rc & P & O & D & F);
    try (unfold s0; cbn; rewrite ?UINT_small by lia; lia); trivial.
  destruct (read_loop_total (S (length (qp :: Q))) s0) as (s'' & Hs'' & Hst);
    [unfold s0; cbn; lia|].
  rewrite Hs' in Hs''; injection Hs'' as <-.
  rewrite Hs', Hst by (left; unfold s0; cbn; discriminate).
  unfold s0 in *; cbn in B, Rc, P, D, F. rewrite UINT_small in * by lia.
  eexists; split; [reflexivity|]. cbn.
  repeat split; trivial.
  rewrite Rc, B; reflexivity.
Qed.

(** LibTCPGetDataFromConnectionQueue returns, whatever it is given. *)
Lemma read_returns c RecvLen :
  exists r, LibTCPGetDataFromConnectionQueue c RecvLen = Some r.
Proof.
  unfold LibTCPGetDataFromConnectionQueue.
  destruct (PacketQueue c) as [|qp Q] eqn:EQ; [eexists; reflexivity|].
  destruct (read_loop_total (S (length (qp :: Q)))
              (mkRead (qp :: Q) (UINT RecvLen) [] 0 None [] []))
    as (s' & Hs' & Hst); [cbn; lia|].
  rewrite Hs', Hst by (left; cbn; discriminate).
  eexists; reflexivity.
Qed.

(** While something is queued a read returns STATUS_SUCCESS. *)
Lemma read_nonempty_status c RecvLen :
  PacketQueue c <> [] ->
  exists r, LibTCPGetDataFromConnectionQueue c RecvLen = Some r /\
    Status r = STATUS_SUCCESS.
Proof.
  intros Hne. unfold LibTCPGetDataFromConnectionQueue.
  destruct (PacketQueue c) as [|qp Q] eqn:EQ; [congruence|].
  destruct (read_loop_total (S (length (qp :: Q)))
              (mkRead (qp :: Q) (UINT RecvLen) [] 0 None [] []))
    as (s' & Hs' & Hst); [cbn; lia|].
  rewrite Hs', Hst by (left; cbn; discriminate).
  eexists; split; reflexivity.
Qed.

(** The first round of a read records its failed assertions for good. *)
Lemma read_first_round c RecvLen qp Q a :
  PacketQueue c = qp :: Q ->
  In a (rd_Failed (read_body qp Q (mkRead (qp :: Q) (UINT RecvLen) [] 0 None [] []))) ->
  exists r, LibTCPGetDataFromConnectionQueue c RecvLen = Some r /\ In a (Failed r).
Proof.
  intros EQ Ha.
  unfold LibTCPGetDataFromConnectionQueue. rewrite EQ.
  set (s0 := mkRead (qp :: Q) (UINT RecvLen) [] 0 None [] []) in *.
  destruct (read_loop_total (S (length (qp :: Q))) s0) as (s' & Hs' & Hst);
    [cbn; lia|].
  rewrite Hs', Hst by (left; cbn; discriminate).
  eexists; split; [reflexivity|]. cbn.
  rewrite (read_loop_cons _ s0 qp Q eq_refl) in Hs'.
  destruct (rd_RecvLen (read_body qp Q s0) =? 0).
  - injection Hs' as <-; exact Ha.
  - eapply read_loop_failed_grows; eauto.
Qed.

(** C4.  A read of an empty queue returns STATUS_PENDING when the
    read-shutdown flag (ReceiveShutdown, the flag the stored terminal status
    goes with) is not set, and the stored terminal status
    (ReceiveShutdownStatus) when it is set; either way it reports zero bytes
    received, stores nothing in the buffer and leaves the connection as it
    was. *)
Theorem read_empty_queue c RecvLen :
  PacketQueue c = [] ->
  exists r, LibTCPGetDataFromConnectionQueue c RecvLen = Some r /\
    (ReceiveShutdown c = false -> Status r = STATUS_PENDING) /\
    (ReceiveShutdown c = true -> Status r = ReceiveShutdownStatus c) /\
    Received r = 0 /\ RecvBuffer r = [] /\ Connection r = c /\
    Released r = [] /\ Failed r = [].
Proof.
  intros EQ. unfold LibTCPGetDataFromConnectionQueue. rewrite EQ.
  eexists; split; [reflexivity|]. cbn.
  repeat split; trivial; intros ->; reflexivity.
Qed.

(** C10.  With a buffer length that is positive and every queued entry
    holding at least one unread byte, a read of a non-empty queue returns
    STATUS_SUCCESS with between 1 and RecvLen bytes received and none of
    its assertions fails.  With a zero-length buffer and a non-empty queue
    the assertions on ReadLength and on Received both fail; and with a
    positive buffer length, a head entry with no unread byte makes the
    assertion on ReadLength fail. *)
Theorem read_assertions :
  (forall c RecvLen,
     PacketQueue c <> [] -> Forall entry_live (PacketQueue c) ->
     0 < RecvLen < 2 ^ 32 ->
     exists r, LibTCPGetDataFromConnectionQueue c RecvLen = Some r /\
       Status r = STATUS_SUCCESS /\ 1 <= Received r <= RecvLen /\ Failed r = []) /\
  (forall c,
     PacketQueue c <> [] ->
     exists r, LibTCPGetDataFromConnectionQueue c 0 = Some r /\
       Received r = 0 /\
       In ReadLength_nonzero (Failed r) /\ In Received_nonzero (Failed r)) /\
  (forall c RecvLen qp Q,
     PacketQueue c = qp :: Q -> Offset qp = tot_len (p qp) ->
     0 < RecvLen < 2 ^ 32 ->
     exists r, LibTCPGetDataFromConnectionQueue c RecvLen = Some r /\
       In ReadLength_nonzero (Failed r)).
Proof.
  split; [|split].
  - intros c RecvLen Hne Hlive HR.
    destruct (read_nonempty c RecvLen Hne) as (r & Hr & St & B & Rc & _ & _ & _ & _ & F);
      [eapply Forall_impl; [|exact Hlive]; apply entry_live_ok | lia |].
    exists r; repeat split; trivial; try (apply F; trivial; lia).
    + rewrite Rc, B, length_firstn.
      destruct (PacketQueue c) as [|qp Q]; [congruence|].
      inversion Hlive as [|? ? Hqp _]; subst.
      pose proof (unread_length qp (entry_live_ok _ Hqp)) as Hlen.
      destruct Hqp as [Hoff _].
      rewrite pending_cons, length_app. lia.
    + rewrite Rc, B, length_firstn. lia.
  - intros c Hne.
    unfold LibTCPGetDataFromConnectionQueue.
    destruct (PacketQueue c) as [|qp Q] eqn:EQ; [congruence|].
    rewrite (read_loop_cons _ (mkRead (qp :: Q) (UINT 0) [] 0 None [] []) qp Q eq_refl).
    unfold read_body, pbuf_copy_partial; cbn.
    pose proof (UINT_range (tot_len (p qp) - Offset qp)) as HPL.
    set (PL := UINT (tot_len (p qp) - Offset qp)) in *.
    destruct (MIN_cases PL 0) as [[? _] | [_ ->]]; [lia|].
    cbn. eexists; split; [reflexivity|]. cbn.
    split; [reflexivity|]. unfold ASSERT.
    repeat match goal with
           | |- context [if ?b then _ else _] => destruct b
           end; cbn; rewrite ?in_app_iff; cbn; tauto.
  - intros c RecvLen qp Q EQ Hoff HR.
    apply (read_first_round c RecvLen qp Q _ EQ).
    unfold read_body, pbuf_copy_partial; cbn.
    rewrite Hoff, Z.sub_diag, (UINT_small 0), (UINT_small RecvLen) by lia.
    destruct (MIN_cases 0 RecvLen) as [[_ ->] | [? _]]; [|lia].
    cbn. unfold ASSERT.
    repeat match goal with
           | |- context [if ?b then _ else _] => destruct b
           end; cbn; rewrite ?in_app_iff; cbn; tauto.
Qed.

Import String.

(** C8.  After segments of 5, 3 and 7 bytes arrived in that order, a read
    with a 10-byte buffer returns 10 bytes: the first segment, the second
    and the first 2 bytes of the third, in order; the third segment goes
    back to the head of the queue with offset 2.  The next read returns
    the 5 bytes from that offset on and leaves the queue empty.  In
    general a read of a non-empty queue returns the first RecvLen pending
    bytes across the queued segments, in order, leaves the rest queued,
    and ends with the buffer full or the queue empty. *)
Theorem read_aggregates :
  (LibTCPGetDataFromConnectionQueue Sample.three_segments 10 =
     Some (mkResult STATUS_SUCCESS 10 (Sample.bytes "HELLOabc12")
             (set_PacketQueue Sample.open [mkQueueEntry (Sample.bytes "1234567") 2])
             [Sample.bytes "HELLO"; Sample.bytes "abc"] []) /\
   LibTCPGetDataFromConnectionQueue
     (set_PacketQueue Sample.open [mkQueueEntry (Sample.bytes "1234567") 2]) 10 =
     Some (mkResult STATUS_SUCCESS 5 (Sample.bytes "34567") Sample.open
             [Sample.bytes "1234567"] [])) /\
  (forall c RecvLen,
     PacketQueue c <> [] -> Forall entry_ok (PacketQueue c) ->
     0 <= RecvLen < 2 ^ 32 ->
     exists r, LibTCPGetDataFromConnectionQueue c RecvLen = Some r /\
       Status r = STATUS_SUCCESS /\
       RecvBuffer r = firstn (Z.to_nat RecvLen) (pending (PacketQueue c)) /\
       Received r = Z.of_nat (List.length (RecvBuffer r)) /\
       Connection r = set_PacketQueue c (PacketQueue (Connection r)) /\
       pending (PacketQueue (Connection r)) =
         skipn (Z.to_nat RecvLen) (pending (PacketQueue c)) /\
       (Received r = RecvLen \/ PacketQueue (Connection r) = [])).
Proof.
  split; [split; reflexivity|].
  intros c RecvLen Hne Hok HR.
  destruct (read_nonempty c RecvLen Hne Hok HR)
    as (r & Hr & St & B & Rc & Cn & P & _ & D & _).
  exists r; repeat split; trivial.
Qed.

End Facts.

(** *** Closed instances *)

Lemma read_empty_queue_witness :
  PacketQueue Sample.open = [] /\
  exists r,
    LibTCPGetDataFromConnectionQueue (nt := Sample.nt) Sample.open 10 = Some r /\
    Status r = 259 /\ Received r = 0 /\ Connection r = Sample.open.
Proof.
  split; [reflexivity|].
  destruct (read_empty_queue (nt := Sample.nt) Sample.open 10 eq_refl)
    as (r & Hr & Hpending & _ & Hzero & _ & Hconn & _).
  exists r. repeat split; trivial. apply Hpending; reflexivity.
Defined.

Lemma three_segments_live : Forall entry_live (PacketQueue Sample.three_segments).
Proof. repeat constructor; cbn; lia. Defined.

Lemma three_segments_ok : Forall entry_ok (PacketQueue Sample.three_segments).
Proof. repeat constructor; cbn; lia. Defined.

Lemma read_assertions_witness :
  (PacketQueue Sample.three_segments <> [] /\
   Forall entry_live (PacketQueue Sample.three_segments) /\ 0 < 10 < 2 ^ 32) /\
  exists r,
    LibTCPGetDataFromConnectionQueue (nt := Sample.nt) Sample.three_segments 10 = Some r /\
    Status r = 0 /\ 1 <= Received r <= 10 /\ Failed r = [].
Proof.
  assert (Hne : PacketQueue Sample.three_segments <> []) by discriminate.
  assert (Hlen : 0 < 10 < 2 ^ 32) by lia.
  split; [split; [exact Hne | split; [apply three_segments_live | exact Hlen]]|].
  exact (proj1 (read_assertions (nt := Sample.nt)) Sample.three_segments 10
           Hne three_segments_live Hlen).
Defined.

Lemma read_aggregates_witness :
  (PacketQueue Sample.three_segments <> [] /\
   Forall entry_ok (PacketQueue Sample.three_segments) /\ 0 <= 10 < 2 ^ 32) /\
  exists r,
    LibTCPGetDataFromConnectionQueue (nt := Sample.nt) Sample.three_segments 10 = Some r /\
    RecvBuffer r = firstn 10 (pending (PacketQueue Sample.three_segments)) /\
    (Received r = 10 \/ PacketQueue (Connection r) = []).
Proof.
  assert (Hne : PacketQueue Sample.three_segments <> []) by discriminate.
  assert (Hlen : 0 <= 10 < 2 ^ 32) by lia.
  split; [split; [exact Hne | split; [apply three_segments_ok | exact Hlen]]|].
  destruct (proj2 (read_aggregates (nt := Sample.nt)) Sample.three_segments 10
              Hne three_segments_ok Hlen)
    as (r & Hr & _ & Hbuf & _ & _ & _ & Hend).
  exists r. repeat split; trivial.
Defined.

End QueueFacts.

(** ** The bridge *)

Module BridgeFacts.
Import Bridge.

Section Facts.
Context {nt : NtDriver} {lwip : LwIP}.

Ltac run :=
  repeat (progress (unfold bind, ret, connection, update, read_pcb_state,
                      tcp_sndbuf, call, call_err, call_pcb, notify, when,
                      after_call); cbn); cbn.

Lemma set_PacketQueue_same c : set_PacketQueue c (PacketQueue c) = c.
Proof. destruct c; reflexivity. Qed.

Lemma world_same w : mkWorld (Conn w) (Eng w) (Trace w) = w.
Proof. destruct w; reflexivity. Qed.

Lemma EmptyQueue_loop_spec q : forall w,
  EmptyQueue_loop q w =
  (tt, mkWorld (match q with [] => Conn w | _ => set_PacketQueue (Conn w) [] end)
               (fold_left lwip_step (queue_frees q) (Eng w))
               (Trace w ++ map Called (queue_frees q))).
Proof.
  induction q as [|qp rest IH]; intros w.
  - cbn. unfold ret. rewrite app_nil_r, world_same. reflexivity.
  - cbn [EmptyQueue_loop]. run. rewrite IH. cbn.
    rewrite <- app_assoc. cbn. f_equal. f_equal.
    destruct rest; reflexivity.
Qed.

Lemma LibTCPEmptyQueue_spec w : LibTCPEmptyQueue w = (tt, emptied w).
Proof.
  unfold LibTCPEmptyQueue, emptied. run. rewrite EmptyQueue_loop_spec.
  f_equal. f_equal.
  destruct (PacketQueue (Conn w)) eqn:E; trivial.
  rewrite <- E, set_PacketQueue_same. reflexivity.
Qed.

(** LibTCPCloseCallback in one piece: the queue is emptied; then, on a
    live pcb, either tcp_abort or tcp_close is called, once. *)
Lemma Close_callback_spec msg w :
  LibTCPCloseCallback msg w =
  let w0 := emptied w in
  match SocketContext (Conn w) with
  | None => (KeSetEvent (set_Error msg ERR_OK), w0)
  | Some pcb =>
      let early := match pcb_state (Eng w0) pcb with
                   | CLOSED | LISTEN | SYN_SENT => true
                   | _ => false
                   end in
      if negb early && (SendShutdown (Conn w) && ReceiveShutdown (Conn w)) then
        (KeSetEvent (set_Error msg ERR_OK),
         mkWorld (set_SocketContext (Conn w0) None)
                 (lwip_step (Eng w0) (c_tcp_abort pcb))
                 (Trace w0 ++ [Called (c_tcp_abort pcb)]))
      else
        let e := lwip_err (Eng w0) (c_tcp_close pcb) in
        (KeSetEvent (set_Error msg e),
         mkWorld (set_SocketContext (Conn w0) (if err_eqb e ERR_OK then None else Some pcb))
                 (lwip_step (Eng w0) (c_tcp_close pcb))
                 (Trace w0 ++ Called (c_tcp_close pcb) ::
                    (if early && err_eqb e ERR_OK && truth (Input_Callback msg)
                     then [Notified (TCPFinEventHandler ERR_CLSD)] else [])))
  end.
Proof.
  unfold LibTCPCloseCallback, bind at 1. rewrite LibTCPEmptyQueue_spec.
  run.
  destruct (SocketContext (Conn w)) as [pcb|]; [|reflexivity].
  unfold emptied; cbn.
  destruct (err_eqb (lwip_err (fold_left lwip_step
                                 (queue_frees (PacketQueue (Conn w))) (Eng w))
                              (c_tcp_close pcb)) ERR_OK) eqn:Ee;
    destruct (pcb_state _ pcb); cbn;
    destruct (SendShutdown (Conn w)), (ReceiveShutdown (Conn w)); cbn;
    destruct (truth (Input_Callback msg)); cbn;
    rewrite ?Ee; cbn; rewrite ?Ee; cbn; rewrite <- ?app_assoc; reflexivity.
Qed.

Lemma err_eqb_eq a b : err_eqb a b = true <-> a = b.
Proof. unfold err_eqb; destruct (err_t_eq_dec a b); split; congruence. Qed.

Lemma err_eqb_refl a : err_eqb a a = true.
Proof. now apply err_eqb_eq. Qed.

Lemma u16_t_range z : 0 <= u16_t z < 2 ^ 16.
Proof. unfold u16_t; apply Z.mod_pos_bound; lia. Qed.

(** The MORE bit is among the flags of a partial write. *)
Lemma more_flag_set a b : Z.land (Z.lor a b) b = b.
Proof.
  apply Z.bits_inj'; intros n Hn.
  rewrite Z.land_spec, Z.lor_spec. destruct (Z.testbit a n), (Z.testbit b n); reflexivity.
Qed.

(** With no room in the send buffer the Send body asks lwIP for nothing. *)
Lemma Send_callback_no_room msg w pcb :
  SocketContext (Conn w) = Some pcb -> SendShutdown (Conn w) = false ->
  u16_t (snd_buf (Eng w) pcb) = 0 ->
  LibTCPSendCallback msg w = (KeSetEvent (set_Error msg ERR_INPROGRESS), w).
Proof.
  intros Hpcb Hsh Hwin. unfold LibTCPSendCallback. run.
  rewrite Hpcb, Hsh; run. rewrite Hwin. reflexivity.
Qed.

(** With less room than the request the Send body writes what fits. *)
Lemma Send_callback_partial msg w pcb :
  SocketContext (Conn w) = Some pcb -> SendShutdown (Conn w) = false ->
  0 < u16_t (snd_buf (Eng w) pcb) < UINT (Input_DataLength msg) ->
  let window := u16_t (snd_buf (Eng w) pcb) in
  let write := c_tcp_write pcb (Input_Data msg) window
                 (Z.lor TCP_WRITE_FLAG_COPY TCP_WRITE_FLAG_MORE) in
  let e := lwip_err (Eng w) write in
  let r := LibTCPSendCallback msg w in
  Conn (snd r) = Conn w /\
  Trace (snd r) =
    Trace w ++ Called write ::
      (if err_eqb e ERR_OK then [Called (c_tcp_output pcb)] else []) /\
  msg_Event (fst r) = true /\
  (e = ERR_OK -> Output_Error (fst r) = ERR_OK /\ Output_Information (fst r) = window).
Proof.
  intros Hpcb Hsh Hwin window write e r.
  unfold r, LibTCPSendCallback. run. rewrite Hpcb, Hsh; run.
  fold window.
  replace (window =? 0) with false by (symmetry; apply Z.eqb_neq; lia).
  replace (window <? UINT (Input_DataLength msg)) with true
    by (symmetry; apply Z.ltb_lt; lia).
  run. fold write. fold e.
  destruct (err_eqb e ERR_OK) eqn:Ee; run.
  - apply err_eqb_eq in Ee. rewrite <- app_assoc. repeat split; trivial.
  - destruct (err_eqb e ERR_MEM); run; repeat split; trivial;
      rewrite (proj2 (err_eqb_eq _ _)) in Ee by assumption; discriminate.
Qed.

(** A blocking Send whose request was allocated, run and completed hands
    back what the Send body left in the request. *)
Lemma Send_completes s data len safe w m0 :
  ExAllocateFromNPagedLookasideList s = Some m0 ->
  truth safe = true \/ tcpip_ran s = true ->
  KeWaitForMultipleObjects s = STATUS_WAIT_0 ->
  let r := LibTCPSendCallback (Input_Send (KeInitializeEvent m0) data (u16_t len)) w in
  LibTCPSend s data len safe w =
  ((Output_Error (fst r),
    Some (if err_eqb (Output_Error (fst r)) ERR_OK
          then UINT (Output_Information (fst r)) else 0)),
   snd r).
Proof.
  intros Ha Hran Hw r.
  unfold LibTCPSend, WaitForEventSafely, tcpip_callback_with_block.
  rewrite Ha, Hw, Z.eqb_refl.
  assert (E : (if truth safe
               then LibTCPSendCallback (Input_Send (KeInitializeEvent m0) data (u16_t len))
               else if tcpip_ran s
                    then LibTCPSendCallback (Input_Send (KeInitializeEvent m0) data (u16_t len))
                    else ret (Input_Send (KeInitializeEvent m0) data (u16_t len)))
              = LibTCPSendCallback (Input_Send (KeInitializeEvent m0) data (u16_t len))).
  { destruct Hran as [-> | ->]; [reflexivity | destruct (truth safe); reflexivity]. }
  rewrite E. unfold bind, ret. fold r. destruct r; reflexivity.
Qed.

(** C1.  Send on a connection with a live pcb and SendShutdown clear.
    The Send body (LibTCPSendCallback): when tcp_sndbuf is zero it sets the
    request's error to ERR_INPROGRESS and leaves lwIP untouched; when
    tcp_sndbuf is positive and below the requested length it calls
    tcp_write once, for the caller's data with length tcp_sndbuf and the
    flags COPY and MORE, and when lwIP returns ERR_OK it stores that length
    in the request's output.  The blocking call (LibTCPSend), once its
    request was allocated, run and woken by its own event, returns
    ERR_INPROGRESS with zero bytes sent in the first case and, on lwIP
    success, ERR_OK with tcp_sndbuf stored through [sent] in the second. *)
Theorem Send_respects_window :
  (forall msg w pcb,
     SocketContext (Conn w) = Some pcb -> SendShutdown (Conn w) = false ->
     let window := u16_t (snd_buf (Eng w) pcb) in
     let flags := Z.lor TCP_WRITE_FLAG_COPY TCP_WRITE_FLAG_MORE in
     let write := c_tcp_write pcb (Input_Data msg) window flags in
     let r := LibTCPSendCallback msg w in
     (window = 0 ->
        Output_Error (fst r) = ERR_INPROGRESS /\ snd r = w) /\
     (0 < window < UINT (Input_DataLength msg) ->
        Z.land flags TCP_WRITE_FLAG_MORE = TCP_WRITE_FLAG_MORE /\
        Trace (snd r) =
          Trace w ++ Called write ::
            (if err_eqb (lwip_err (Eng w) write) ERR_OK
             then [Called (c_tcp_output pcb)] else []) /\
        (lwip_err (Eng w) write = ERR_OK ->
           Output_Error (fst r) = ERR_OK /\ Output_Information (fst r) = window))) /\
  (forall s data len safe w pcb m0,
     SocketContext (Conn w) = Some pcb -> SendShutdown (Conn w) = false ->
     ExAllocateFromNPagedLookasideList s = Some m0 ->
     truth safe = true \/ tcpip_ran s = true ->
     KeWaitForMultipleObjects s = STATUS_WAIT_0 ->
     let window := u16_t (snd_buf (Eng w) pcb) in
     let write := c_tcp_write pcb data window
                    (Z.lor TCP_WRITE_FLAG_COPY TCP_WRITE_FLAG_MORE) in
     (window = 0 ->
        LibTCPSend s data len safe w = ((ERR_INPROGRESS, Some 0), w)) /\
     (0 < window < u16_t len -> lwip_err (Eng w) write = ERR_OK ->
        fst (LibTCPSend s data len safe w) = (ERR_OK, Some window) /\
        Trace (snd (LibTCPSend s data len safe w)) =
          Trace w ++ [Called write; Called (c_tcp_output pcb)])).
Proof.
  split.
  - intros msg w pcb Hpcb Hsh window flags write r. split.
    + intros Hwin. unfold r.
      rewrite (Send_callback_no_room msg w pcb Hpcb Hsh Hwin). split; reflexivity.
    + intros Hwin.
      destruct (Send_callback_partial msg w pcb Hpcb Hsh Hwin) as (_ & T & _ & O).
      split; [apply more_flag_set|]. split; [exact T | exact O].
  - intros s data len safe w pcb m0 Hpcb Hsh Ha Hran Hw window write.
    rewrite (Send_completes s data len safe w m0 Ha Hran Hw). split.
    + intros Hwin.
      rewrite (Send_callback_no_room _ w pcb Hpcb Hsh Hwin). reflexivity.
    + intros Hwin He.
      pose proof (u16_t_range len) as Hlen.
      pose proof (u16_t_range (snd_buf (Eng w) pcb)) as Hrange.
      destruct (Send_callback_partial
                  (Input_Send (KeInitializeEvent m0) data (u16_t len)) w pcb Hpcb Hsh)
        as (_ & T & _ & O).
      { cbn. rewrite QueueFacts.UINT_small by lia. exact Hwin. }
      cbn [Input_Data Input_Send] in T, O. fold window in T, O. fold write in T, O.
      destruct (O He) as [OE OI]. cbn [fst snd].
      rewrite OE, OI, err_eqb_refl, QueueFacts.UINT_small by (fold window; lia).
      split; [reflexivity|].
      rewrite T, He, err_eqb_refl. reflexivity.
Qed.

(** A blocking Close whose request was allocated and run. *)
Lemma Close_runs s safe callback w m0 :
  ExAllocateFromNPagedLookasideList s = Some m0 ->
  truth safe = true \/ tcpip_ran s = true ->
  let r := LibTCPCloseCallback (Input_Close (KeInitializeEvent m0) callback) w in
  LibTCPClose s safe callback w =
  (if WaitForEventSafely s then Output_Error (fst r) else ERR_CLSD, snd r).
Proof.
  intros Ha Hran r.
  unfold LibTCPClose, tcpip_callback_with_block. rewrite Ha.
  assert (E : (if truth safe
               then LibTCPCloseCallback (Input_Close (KeInitializeEvent m0) callback)
               else if tcpip_ran s
                    then LibTCPCloseCallback (Input_Close (KeInitializeEvent m0) callback)
                    else ret (Input_Close (KeInitializeEvent m0) callback))
              = LibTCPCloseCallback (Input_Close (KeInitializeEvent m0) callback)).
  { destruct Hran as [-> | ->]; [reflexivity | destruct (truth safe); reflexivity]. }
  rewrite E. unfold bind, ret. fold r. destruct r; reflexivity.
Qed.

Lemma Close_callback_queue msg w :
  PacketQueue (Conn (snd (LibTCPCloseCallback msg w))) = [].
Proof.
  rewrite Close_callback_spec. cbv zeta.
  destruct (SocketContext (Conn w)); [|reflexivity].
  match goal with |- context [if ?b then _ else _] => destruct b end; reflexivity.
Qed.

(** C3.  The Close body (LibTCPCloseCallback) starts by removing every
    queued entry and freeing its pbuf, whether or not the pcb pointer is
    NULL; with a NULL pcb pointer it then sets the result to ERR_OK and does
    nothing else.  So the queue is empty after it, and after a blocking
    Close (LibTCPClose) whose request was allocated and run. *)
Theorem Close_empties_queue :
  (forall msg w,
     let r := LibTCPCloseCallback msg w in
     PacketQueue (Conn (snd r)) = [] /\
     (exists rest,
        Trace (snd r) =
          Trace w ++ map Called (queue_frees (PacketQueue (Conn w))) ++ rest) /\
     (SocketContext (Conn w) = None ->
        Output_Error (fst r) = ERR_OK /\ snd r = emptied w)) /\
  (forall s safe callback w m0,
     ExAllocateFromNPagedLookasideList s = Some m0 ->
     truth safe = true \/ tcpip_ran s = true ->
     let r := LibTCPClose s safe callback w in
     PacketQueue (Conn (snd r)) = [] /\
     (SocketContext (Conn w) = None ->
        KeWaitForMultipleObjects s = STATUS_WAIT_0 ->
        r = (ERR_OK, emptied w))).
Proof.
  split.
  - intros msg w r. split; [apply Close_callback_queue|]. split.
    + unfold r. rewrite Close_callback_spec. cbv zeta.
      destruct (SocketContext (Conn w)).
      * match goal with |- context [if ?b then _ else _] => destruct b end;
          cbn; eexists; rewrite <- app_assoc; reflexivity.
      * exists []. cbn. rewrite app_nil_r. reflexivity.
    + intros Hnull. unfold r. rewrite Close_callback_spec, Hnull. split; reflexivity.
  - intros s safe callback w m0 Ha Hran r. unfold r.
    rewrite (Close_runs s safe callback w m0 Ha Hran). cbn [snd]. split.
    + apply Close_callback_queue.
    + intros Hnull Hw. unfold WaitForEventSafely.
      rewrite Hw, Z.eqb_refl, Close_callback_spec, Hnull. reflexivity.
Qed.

(** C2, as the code has it.  The Close body on a live pcb, after the queue
    was emptied.  When the pcb is in a state other than CLOSED, LISTEN and
    SYN_SENT and both shutdown flags are set, it calls tcp_abort, sets the
    result to ERR_OK and leaves the pcb pointer NULL.  Otherwise it calls
    tcp_close; when that fails the pcb pointer is put back and the error is
    the result; when it succeeds the pcb pointer stays NULL, and
    TCPFinEventHandler is called from the Close body only if the pcb was in
    CLOSED, LISTEN or SYN_SENT and the Callback flag was given. *)
Theorem Close_live_pcb msg w pcb :
  SocketContext (Conn w) = Some pcb ->
  let w0 := emptied w in
  let early := match pcb_state (Eng w0) pcb with
               | CLOSED | LISTEN | SYN_SENT => true
               | _ => false
               end in
  let both := SendShutdown (Conn w) && ReceiveShutdown (Conn w) in
  let e := lwip_err (Eng w0) (c_tcp_close pcb) in
  let r := LibTCPCloseCallback msg w in
  (early = false -> both = true ->
     Output_Error (fst r) = ERR_OK /\
     SocketContext (Conn (snd r)) = None /\
     Trace (snd r) = Trace w0 ++ [Called (c_tcp_abort pcb)]) /\
  (early = true \/ both = false ->
     Output_Error (fst r) = e /\
     (e <> ERR_OK ->
        SocketContext (Conn (snd r)) = Some pcb /\
        Trace (snd r) = Trace w0 ++ [Called (c_tcp_close pcb)]) /\
     (e = ERR_OK ->
        SocketContext (Conn (snd r)) = None /\
        Trace (snd r) =
          Trace w0 ++ Called (c_tcp_close pcb) ::
            (if early && truth (Input_Callback msg)
             then [Notified (TCPFinEventHandler ERR_CLSD)] else []))).
Proof.
  intros Hpcb w0 early both e r.
  unfold r. rewrite Close_callback_spec, Hpcb. cbv zeta.
  fold w0. fold early. fold both. fold e. split.
  - intros -> ->. cbn. repeat split.
  - intros Hgraceful.
    replace (negb early && both) with false
      by (destruct Hgraceful as [-> | ->]; [|destruct early]; reflexivity).
    cbn. split; [reflexivity|]. split.
    + intros He. destruct (err_eqb e ERR_OK) eqn:Ee;
        [apply err_eqb_eq in Ee; contradiction|].
      rewrite andb_false_r. split; reflexivity.
    + intros He. rewrite He, err_eqb_refl, andb_true_r. split; reflexivity.
Qed.

(** C5, as the code has it.  The Shutdown body on a live pcb returns what
    tcp_shutdown returned.  When that is ERR_OK, ReceiveShutdown is set and
    ReceiveShutdownStatus becomes STATUS_FILE_CLOSED exactly if shut_rx was
    given, SendShutdown is set exactly if shut_tx was given, the other
    flags keep their values, and the pcb pointer is NULL afterwards exactly
    if the pcb was in CLOSE_WAIT, whichever directions were given.  When
    tcp_shutdown fails the connection is left as it was: no flag is set and
    the pcb pointer is put back, in CLOSE_WAIT too. *)
Theorem Shutdown_live_pcb msg w pcb :
  SocketContext (Conn w) = Some pcb ->
  let e := lwip_err (Eng w)
             (c_tcp_shutdown pcb (Input_shut_rx msg) (Input_shut_tx msg)) in
  let r := LibTCPShutdownCallback msg w in
  Output_Error (fst r) = e /\
  (e = ERR_OK ->
     ReceiveShutdown (Conn (snd r)) =
       (truth (Input_shut_rx msg) || ReceiveShutdown (Conn w)) /\
     ReceiveShutdownStatus (Conn (snd r)) =
       (if truth (Input_shut_rx msg) then STATUS_FILE_CLOSED
        else ReceiveShutdownStatus (Conn w)) /\
     SendShutdown (Conn (snd r)) =
       (truth (Input_shut_tx msg) || SendShutdown (Conn w)) /\
     PacketQueue (Conn (snd r)) = PacketQueue (Conn w) /\
     SocketContext (Conn (snd r)) =
       match pcb_state (Eng w) pcb with CLOSE_WAIT => None | _ => Some pcb end) /\
  (e <> ERR_OK -> Conn (snd r) = Conn w).
Proof.
  intros Hpcb e r. unfold r, LibTCPShutdownCallback. run. rewrite Hpcb. run.
  destruct (err_eqb (lwip_err (Eng w)
              (c_tcp_shutdown pcb (Input_shut_rx msg) (Input_shut_tx msg))) ERR_OK)
    eqn:Ee.
  - assert (He : e = ERR_OK) by (apply err_eqb_eq; exact Ee).
    destruct (pcb_state (Eng w) pcb); run; rewrite ?Ee; run;
      destruct (truth (Input_shut_rx msg)), (truth (Input_shut_tx msg)); run;
      (split; [reflexivity|]); (split; [intros _; repeat split; trivial |]);
      intros Hne; contradiction.
  - assert (Hne : e <> ERR_OK)
      by (intros He; unfold e in He; rewrite He, err_eqb_refl in Ee; discriminate).
    destruct (pcb_state (Eng w) pcb); run; rewrite ?Ee; run;
      (split; [reflexivity|]); (split; [intros He; contradiction|]); intros _;
      rewrite <- Hpcb; destruct (Conn w); reflexivity.
Qed.

(** C6.  The error callback with a non-NULL argument.  With an empty
    queue it calls TCPFinEventHandler with the error and changes nothing.
    With a non-empty queue it calls no TCPFinEventHandler: it sets
    ReceiveShutdown, stores the translated error in ReceiveShutdownStatus
    and calls TCPRecvEventHandler; the queue is kept, a read made while it
    is not empty returns STATUS_SUCCESS, and a read made once it is empty
    returns the translated error. *)
Theorem Error_event_is_deferred err w :
  let w' := snd (InternalErrorEventHandler (Some Connection_ptr) err w) in
  (PacketQueue (Conn w) = [] ->
     w' = mkWorld (Conn w) (Eng w) (Trace w ++ [Notified (TCPFinEventHandler err)])) /\
  (PacketQueue (Conn w) <> [] ->
     w' = mkWorld (set_ReceiveShutdown (Conn w) true (TCPTranslateError err))
                  (Eng w) (Trace w ++ [Notified TCPRecvEventHandler]) /\
     (forall RecvLen, exists r,
        Queue.LibTCPGetDataFromConnectionQueue (Conn w') RecvLen = Some r /\
        Queue.Status r = STATUS_SUCCESS) /\
     (forall RecvLen,
        Queue.LibTCPGetDataFromConnectionQueue (set_PacketQueue (Conn w') []) RecvLen =
        Some (Queue.mkResult (TCPTranslateError err) 0 []
                (set_PacketQueue (Conn w') []) [] []))).
Proof.
  intros w'. unfold w', InternalErrorEventHandler. run.
  destruct (PacketQueue (Conn w)) eqn:EQ; run; split; intros H;
    try congruence; try reflexivity.
  split; [reflexivity|]. split; [|reflexivity].
  intros RecvLen. apply QueueFacts.read_nonempty_status. cbn. rewrite EQ. exact H.
Qed.

(** C7.  The receive callback with a non-NULL argument, no pbuf and
    ERR_OK: afterwards ReceiveShutdown is set and ReceiveShutdownStatus is
    STATUS_SUCCESS, whatever they were; then TCPRecvEventHandler is called
    if the connection's SocketContext is not NULL and TCPFinEventHandler
    with ERR_CLSD if it is, and nothing else is called.  It returns ERR_OK,
    makes no call on lwIP and leaves SendShutdown, SocketContext and the
    queue as they were. *)
Theorem Recv_event_remote_close pcb w :
  let r := InternalRecvEventHandler (Some Connection_ptr) pcb None ERR_OK w in
  fst r = ERR_OK /\
  ReceiveShutdown (Conn (snd r)) = true /\
  ReceiveShutdownStatus (Conn (snd r)) = STATUS_SUCCESS /\
  SendShutdown (Conn (snd r)) = SendShutdown (Conn w) /\
  SocketContext (Conn (snd r)) = SocketContext (Conn w) /\
  PacketQueue (Conn (snd r)) = PacketQueue (Conn w) /\
  Eng (snd r) = Eng w /\
  Trace (snd r) =
    Trace w ++ [Notified (match SocketContext (Conn w) with
                          | Some _ => TCPRecvEventHandler
                          | None => TCPFinEventHandler ERR_CLSD
                          end)].
Proof.
  intros r. unfold r, InternalRecvEventHandler. run.
  destruct (SocketContext (Conn w)) eqn:E; run; rewrite ?E; repeat split.
Qed.

(** C9, as the code has it.  A blocking call whose wait ends on anything
    but its own event (STATUS_WAIT_0) does not look at the request's
    output: Bind, Connect, Send, Shutdown and Close return ERR_CLSD, Send
    storing 0 through [sent]; Socket and Listen, which return a pcb
    pointer, return NULL. *)
Theorem Termination_ends_the_call s m0 w :
  ExAllocateFromNPagedLookasideList s = Some m0 ->
  KeWaitForMultipleObjects s <> STATUS_WAIT_0 ->
  (forall ipaddr port, fst (LibTCPBind s ipaddr port w) = ERR_CLSD) /\
  (forall ipaddr port, fst (LibTCPConnect s ipaddr port w) = ERR_CLSD) /\
  (forall data len safe, fst (LibTCPSend s data len safe w) = (ERR_CLSD, Some 0)) /\
  (forall shut_rx shut_tx, fst (LibTCPShutdown s shut_rx shut_tx w) = ERR_CLSD) /\
  (forall safe callback, fst (LibTCPClose s safe callback w) = ERR_CLSD) /\
  (forall arg, fst (LibTCPSocket s arg w) = None) /\
  (forall backlog, fst (LibTCPListen s backlog w) = None).
Proof.
  intros Ha Hw.
  assert (Hwait : WaitForEventSafely s = false)
    by (unfold WaitForEventSafely; now apply Z.eqb_neq).
  repeat split; intros;
    unfold LibTCPBind, LibTCPConnect, LibTCPSend, LibTCPShutdown, LibTCPClose,
      LibTCPSocket, LibTCPListen, bind, ret;
    rewrite Ha, Hwait;
    match goal with
    | |- fst (let (_, _) := ?m ?w in _) = _ => destruct (m w); reflexivity
    end.
Qed.

End Facts.

(** *** Closed instances *)

(** Send with 4 bytes of room for a request of 10. *)
Lemma Send_respects_window_witness :
  let w := Sample.world Sample.open ESTABLISHED 4 ERR_OK in
  let data := Sample.ten_bytes in
  (SocketContext (Conn w) = Some 1%nat /\ SendShutdown (Conn w) = false /\
   0 < u16_t (snd_buf (Eng w) 1%nat) < u16_t 10) /\
  fst (LibTCPSend (nt := Sample.nt) Sample.completes data 10 0 w) = (ERR_OK, Some 4) /\
  Trace (snd (LibTCPSend (nt := Sample.nt) Sample.completes data 10 0 w)) =
    [Called (c_tcp_write 1%nat data 4 3); Called (c_tcp_output 1%nat)].
Proof.
  intros w data.
  assert (Hwin : 0 < u16_t (snd_buf (Eng w) 1%nat) < u16_t 10) by (cbn; lia).
  split; [split; [reflexivity | split; [reflexivity | exact Hwin]]|].
  exact (proj2 (proj2 (Send_respects_window (nt := Sample.nt) (lwip := Sample.lwip))
                  Sample.completes data 10 0 w 1%nat Sample.blank
                  eq_refl eq_refl eq_refl (or_intror eq_refl) eq_refl)
           Hwin eq_refl).
Defined.

Lemma Close_empties_queue_witness :
  let w := Sample.world Sample.three_segments ESTABLISHED 0 ERR_OK in
  (ExAllocateFromNPagedLookasideList Sample.completes = Some Sample.blank /\
   tcpip_ran Sample.completes = true) /\
  PacketQueue (Conn (snd (LibTCPClose (nt := Sample.nt) Sample.completes 0 1 w))) = [].
Proof.
  intros w. split; [split; reflexivity|].
  exact (proj1 (proj2 (Close_empties_queue (nt := Sample.nt) (lwip := Sample.lwip))
                  Sample.completes 0 1 w Sample.blank eq_refl (or_intror eq_refl))).
Defined.

(** C2: a live, established connection with no shutdown flag set is closed
    with the Callback flag given and tcp_close succeeds, yet the Close body
    calls no TCPFinEventHandler; and a pcb in SYN_SENT whose connection has
    both shutdown flags set is closed with tcp_close, not tcp_abort. *)
Lemma Close_counterexample :
  (let r := LibTCPCloseCallback (Input_Close Sample.blank 1)
              (Sample.world Sample.open ESTABLISHED 0 ERR_OK) in
   Output_Error (fst r) = ERR_OK /\
   SocketContext (Conn (snd r)) = None /\
   ~ In (Notified (TCPFinEventHandler ERR_CLSD)) (Trace (snd r))) /\
  (let r := LibTCPCloseCallback (Input_Close Sample.blank 0)
              (Sample.world Sample.shut_both_ways SYN_SENT 0 ERR_OK) in
   ~ In (Called (c_tcp_abort 1%nat)) (Trace (snd r)) /\
   Trace (snd r) = [Called (c_tcp_close 1%nat)]).
Proof.
  split; cbn; repeat split; trivial; intros [H | []]; discriminate.
Qed.

Lemma Close_live_pcb_witness :
  let w := Sample.world Sample.shut_both_ways ESTABLISHED 0 ERR_OK in
  let r := LibTCPCloseCallback (Input_Close Sample.blank 1) w in
  SocketContext (Conn w) = Some 1%nat /\
  Output_Error (fst r) = ERR_OK /\
  SocketContext (Conn (snd r)) = None /\
  Trace (snd r) = Trace (emptied w) ++ [Called (c_tcp_abort 1%nat)].
Proof.
  intros w r. split; [reflexivity|].
  exact (proj1 (Close_live_pcb (lwip := Sample.lwip)
                  (Input_Close Sample.blank 1) w 1%nat eq_refl)
           eq_refl eq_refl).
Defined.

(** C5: the pcb is in CLOSE_WAIT, the write direction is shut down and
    tcp_shutdown fails with ERR_MEM; the pcb pointer is not NULL afterwards. *)
Lemma Shutdown_counterexample :
  let w := Sample.world Sample.open CLOSE_WAIT 0 ERR_MEM in
  let r := LibTCPShutdownCallback (nt := Sample.nt) (Input_Shutdown Sample.blank 0 1) w in
  pcb_state (Eng w) 1%nat = CLOSE_WAIT /\
  Output_Error (fst r) = ERR_MEM /\
  SocketContext (Conn (snd r)) = Some 1%nat /\
  SocketContext (Conn (snd r)) <> None.
Proof. cbn. repeat split; discriminate. Qed.

Lemma Shutdown_live_pcb_witness :
  let w := Sample.world Sample.open CLOSE_WAIT 0 ERR_OK in
  let r := LibTCPShutdownCallback (nt := Sample.nt) (Input_Shutdown Sample.blank 0 1) w in
  SocketContext (Conn w) = Some 1%nat /\
  Output_Error (fst r) = ERR_OK /\
  SendShutdown (Conn (snd r)) = true /\
  ReceiveShutdown (Conn (snd r)) = false /\
  SocketContext (Conn (snd r)) = None.
Proof.
  intros w r. split; [reflexivity|].
  destruct (Shutdown_live_pcb (nt := Sample.nt) (lwip := Sample.lwip)
              (Input_Shutdown Sample.blank 0 1) w 1%nat eq_refl)
    as (He & Hok & _).
  destruct (Hok eq_refl) as (Hrx & _ & Htx & _ & Hpcb).
  repeat split; trivial.
Defined.

Lemma Error_event_is_deferred_witness :
  let w := Sample.world Sample.three_segments ESTABLISHED 0 ERR_OK in
  let w' := snd (InternalErrorEventHandler (nt := Sample.nt) (Some Connection_ptr) ERR_RST w) in
  PacketQueue (Conn w) <> [] /\
  w' = mkWorld (set_ReceiveShutdown (Conn w) true 3221226013) (Eng w)
               [Notified TCPRecvEventHandler].
Proof.
  intros w w'.
  assert (Hne : PacketQueue (Conn w) <> []) by discriminate.
  split; [exact Hne|].
  exact (proj1 (proj2 (Error_event_is_deferred (nt := Sample.nt) (lwip := Sample.lwip)
                         ERR_RST w) Hne)).
Defined.

(** C9: when the termination event ends the wait, Socket and Listen hand
    back a NULL pcb pointer, which is no ERR_CLSD and is what they hand back
    when the lookaside list is exhausted. *)
Lemma Termination_counterexample :
  let w := Sample.world Sample.open ESTABLISHED 0 ERR_OK in
  let socket := fst (LibTCPSocket (nt := Sample.nt) Sample.terminated
                       (Some Connection_ptr) w) in
  let listen := fst (LibTCPListen (nt := Sample.nt) Sample.terminated 5 w) in
  KeWaitForMultipleObjects Sample.terminated <> STATUS_WAIT_0 (NtDriver := Sample.nt) /\
  socket = None /\ listen = None /\
  returned_pcb socket <> returned_err ERR_CLSD /\
  returned_pcb listen <> returned_err ERR_CLSD /\
  socket = fst (LibTCPSocket (nt := Sample.nt) Sample.exhausted (Some Connection_ptr) w) /\
  listen = fst (LibTCPListen (nt := Sample.nt) Sample.exhausted 5 w).
Proof. cbn. repeat split; discriminate. Qed.

Lemma Termination_ends_the_call_witness :
  let w := Sample.world Sample.open ESTABLISHED 4 ERR_OK in
  (ExAllocateFromNPagedLookasideList Sample.terminated = Some Sample.blank /\
   KeWaitForMultipleObjects Sample.terminated <> STATUS_WAIT_0 (NtDriver := Sample.nt)) /\
  fst (LibTCPSend (nt := Sample.nt) Sample.terminated Sample.ten_bytes 10 0 w)
    = (ERR_CLSD, Some 0) /\
  fst (LibTCPClose (nt := Sample.nt) Sample.terminated 0 1 w) = ERR_CLSD.
Proof.
  intros w.
  assert (Hw : KeWaitForMultipleObjects Sample.terminated
               <> STATUS_WAIT_0 (NtDriver := Sample.nt)) by discriminate.
  split; [split; [reflexivity | exact Hw]|].
  destruct (Termination_ends_the_call (nt := Sample.nt) (lwip := Sample.lwip)
              Sample.terminated Sample.blank w eq_refl Hw)
    as (_ & _ & Hsend & _ & Hclose & _).
  split; [apply Hsend | apply Hclose].
Defined.

End BridgeFacts.

(** ** More on the packet queue *)

Module QueueMore.
Import Queue QueueFacts.

Section Facts.
Context {nt : NtDriver}.

Lemma UINT_idem z : UINT (UINT z) = UINT z.
Proof. unfold UINT. apply Z.mod_mod. lia. Qed.

Lemma firstn_plus {A} (n m : nat) (l : list A) :
  firstn (n + m) l = firstn n l ++ firstn m (skipn n l).
Proof.
  revert l; induction n as [|n IH]; intros l; [reflexivity|].
  destruct l as [|a l]; cbn; [now rewrite firstn_nil | now rewrite IH].
Qed.

(** *** Which pbufs a read lets go of *)

Lemma read_body_released qp Q s :
  rd_Released (read_body qp Q s) ++ map p (rd_Queue (read_body qp Q s)) =
  rd_Released s ++ p qp :: map p Q.
Proof.
  unfold read_body, pbuf_copy_partial; cbn.
  destruct (negb _); cbn; [reflexivity|].
  rewrite <- app_assoc. reflexivity.
Qed.

Lemma read_loop_released fuel : forall s s',
  read_loop fuel s = Some s' ->
  rd_Released s' ++ map p (rd_Queue s') = rd_Released s ++ map p (rd_Queue s).
Proof.
  induction fuel as [|fuel IH]; intros s s'; [discriminate|].
  destruct (rd_Queue s) as [|qp Q] eqn:EQ.
  - rewrite (read_loop_nil _ _ EQ). intros [= <-]. rewrite EQ. reflexivity.
  - rewrite (read_loop_cons _ _ _ _ EQ).
    destruct (rd_RecvLen (read_body qp Q s) =? 0).
    + intros [= <-]. apply read_body_released.
    + intros H. rewrite (IH _ _ H). apply read_body_released.
Qed.

(** X4.  Whatever it is given, a read hands each pbuf that was queued
    either to pbuf_free_callback, once, or back to the queue, and keeps
    their order: the released pbufs followed by the queued ones are the
    pbufs queued before. *)
Theorem read_accounts_for_pbufs c RecvLen :
  exists r, LibTCPGetDataFromConnectionQueue c RecvLen = Some r /\
    Released r ++ map p (PacketQueue (Connection r)) = map p (PacketQueue c).
Proof.
  unfold LibTCPGetDataFromConnectionQueue.
  destruct (PacketQueue c) as [|qp Q] eqn:EQ.
  - eexists; split; [reflexivity|]. cbn. rewrite EQ. reflexivity.
  - set (s0 := mkRead (qp :: Q) (UINT RecvLen) [] 0 None [] []).
    destruct (read_loop_total (S (List.length (qp :: Q))) s0) as (s' & Hs' & Hst);
      [cbn; lia|].
    rewrite Hs', Hst by (left; cbn; discriminate).
    eexists; split; [reflexivity|]. cbn.
    apply (read_loop_released _ _ _ Hs').
Qed.

(** *** Entries stay readable *)

Lemma read_loop_live Q : forall fuel s s',
  rd_Queue s = Q -> Forall entry_live Q ->
  0 <= rd_RecvLen s < 2 ^ 32 ->
  0 <= rd_Received s -> rd_Received s + rd_RecvLen s < 2 ^ 32 ->
  read_loop fuel s = Some s' ->
  Forall entry_live (rd_Queue s').
Proof.
  induction Q as [|qp Q IH]; intros fuel s s' EQ Hlive HR HRc Hsum;
    (destruct fuel as [|fuel]; [discriminate|]).
  - rewrite (read_loop_nil _ _ EQ). intros [= <-]. rewrite EQ. constructor.
  - rewrite (read_loop_cons _ _ _ _ EQ).
    inversion Hlive as [|? ? Hqp HQ]; subst.
    pose proof (entry_live_ok _ Hqp) as Hok.
    destruct (Z.lt_ge_cases (tot_len (p qp) - Offset qp) (rd_RecvLen s)) as [Hlt | Hge].
    + destruct (read_body_whole qp Q s Hok HR HRc Hsum Hlt) as (E1 & E2 & _ & E4 & _).
      destruct Hqp as [Hoff Htot].
      replace (rd_RecvLen (read_body qp Q s) =? 0) with false
        by (symmetry; apply Z.eqb_neq; lia).
      apply IH; trivial; rewrite ?E2, ?E4; lia.
    + destruct (read_body_fills qp Q s Hok HR HRc Hsum Hge) as (E1 & E2 & _).
      rewrite E2. cbn [Z.eqb]. intros [= <-]. rewrite E1.
      destruct (Z.ltb_spec (rd_RecvLen s) (tot_len (p qp) - Offset qp)); trivial.
      constructor; trivial. destruct Hqp as [Hoff Htot].
      unfold entry_live; cbn. lia.
Qed.

Lemma read_normalised c RecvLen :
  LibTCPGetDataFromConnectionQueue c (UINT RecvLen) =
  LibTCPGetDataFromConnectionQueue c RecvLen.
Proof. unfold LibTCPGetDataFromConnectionQueue. rewrite UINT_idem. reflexivity. Qed.

Lemma read_live c RecvLen :
  Forall entry_live (PacketQueue c) ->
  exists r, LibTCPGetDataFromConnectionQueue c RecvLen = Some r /\
    Forall entry_live (PacketQueue (Connection r)) /\
    Connection r = set_PacketQueue c (PacketQueue (Connection r)).
Proof.
  intros Hlive. unfold LibTCPGetDataFromConnectionQueue.
  destruct (PacketQueue c) as [|qp Q] eqn:EQ.
  - eexists; split; [reflexivity|]. cbn. rewrite EQ. split; [constructor|].
    rewrite <- EQ. destruct c; reflexivity.
  - set (s0 := mkRead (qp :: Q) (UINT RecvLen) [] 0 None [] []).
    destruct (read_loop_total (S (List.length (qp :: Q))) s0) as (s' & Hs' & Hst);
      [cbn; lia|].
    rewrite Hs', Hst by (left; cbn; discriminate).
    eexists; split; [reflexivity|]. cbn. split; [|reflexivity].
    pose proof (UINT_range RecvLen) as HR.
    apply (read_loop_live (qp :: Q) (S (List.length (qp :: Q))) s0 s' eq_refl Hlive);
      trivial; cbn; lia.
Qed.

Lemma enqueue_live c q :
  0 < tot_len q < 2 ^ 16 -> Forall entry_live (PacketQueue c) ->
  Forall entry_live (PacketQueue (LibTCPEnqueuePacket c q)).
Proof.
  intros Hq Hlive. cbn. apply Forall_app. split; trivial.
  constructor; [|constructor]. unfold entry_live; cbn. lia.
Qed.

(** X3.  Queue entries keep an unread byte.  If every queued entry has
    one, so has every entry left by a read, whatever the buffer length,
    and so has every entry after a pbuf of 1 to 65535 bytes was queued. *)
Theorem entries_stay_live c :
  Forall entry_live (PacketQueue c) ->
  (forall RecvLen, exists r,
     LibTCPGetDataFromConnectionQueue c RecvLen = Some r /\
     Forall entry_live (PacketQueue (Connection r))) /\
  (forall q, 0 < tot_len q < 2 ^ 16 ->
     Forall entry_live (PacketQueue (LibTCPEnqueuePacket c q))).
Proof.
  intros Hlive. split.
  - intros RecvLen. destruct (read_live c RecvLen Hlive) as (r & Hr & Hl & _).
    exists r; split; trivial.
  - intros q Hq. apply enqueue_live; trivial.
Qed.

(** *** Reads in a row *)

(** A read of a queue of well-formed entries, empty or not. *)
Lemma read_any c n :
  Forall entry_ok (PacketQueue c) -> 0 <= n < 2 ^ 32 ->
  exists r, LibTCPGetDataFromConnectionQueue c n = Some r /\
    RecvBuffer r = firstn (Z.to_nat n) (pending (PacketQueue c)) /\
    Received r = Z.of_nat (List.length (RecvBuffer r)) /\
    pending (PacketQueue (Connection r)) = skipn (Z.to_nat n) (pending (PacketQueue c)) /\
    Forall entry_ok (PacketQueue (Connection r)) /\
    Connection r = set_PacketQueue c (PacketQueue (Connection r)).
Proof.
  intros Hok Hn.
  destruct (PacketQueue c) as [|qp Q] eqn:EQ.
  - unfold LibTCPGetDataFromConnectionQueue. rewrite EQ.
    eexists; split; [reflexivity|]. cbn. rewrite EQ. cbn.
    rewrite firstn_nil, skipn_nil. repeat split; trivial.
    rewrite <- EQ. destruct c; reflexivity.
  - destruct (read_nonempty c n) as (r & Hr & _ & B & Rc & Cn & P & O & _);
      rewrite ?EQ; trivial; [discriminate|].
    exists r. rewrite EQ in B, P. repeat split; trivial.
Qed.

(** X2.  Two reads in a row take what one read of the added length takes:
    on a queue of well-formed entries, the bytes of a read of [n] followed
    by the bytes of a read of [m] are the first [n + m] pending bytes, and
    the bytes after those stay pending.  Nothing is lost or read twice
    where one read stops and the next goes on. *)
Theorem reads_compose c n m :
  Forall entry_ok (PacketQueue c) -> 0 <= n < 2 ^ 32 -> 0 <= m < 2 ^ 32 ->
  exists r1 r2,
    LibTCPGetDataFromConnectionQueue c n = Some r1 /\
    LibTCPGetDataFromConnectionQueue (Connection r1) m = Some r2 /\
    RecvBuffer r1 ++ RecvBuffer r2 =
      firstn (Z.to_nat (n + m)) (pending (PacketQueue c)) /\
    Received r1 + Received r2 = Z.of_nat (List.length (RecvBuffer r1 ++ RecvBuffer r2)) /\
    pending (PacketQueue (Connection r2)) =
      skipn (Z.to_nat (n + m)) (pending (PacketQueue c)).
Proof.
  intros Hok Hn Hm.
  destruct (read_any c n Hok Hn) as (r1 & Hr1 & B1 & Rc1 & P1 & O1 & _).
  destruct (read_any (Connection r1) m O1 Hm) as (r2 & Hr2 & B2 & Rc2 & P2 & _).
  exists r1, r2. repeat split; trivial.
  - rewrite B1, B2, P1. replace (Z.to_nat (n + m)) with (Z.to_nat n + Z.to_nat m)%nat by lia.
    symmetry; apply firstn_plus.
  - rewrite length_app, Rc1, Rc2. lia.
  - rewrite P2, P1, skipn_skipn. f_equal. lia.
Qed.

(** *** From arrival to read *)

Lemma enqueue_all_pending ps : forall c,
  pending (PacketQueue (fold_left LibTCPEnqueuePacket ps c)) =
  pending (PacketQueue c) ++ concat ps.
Proof.
  induction ps as [|q ps IH]; intros c; cbn [fold_left concat].
  - now rewrite app_nil_r.
  - rewrite IH. cbn. unfold pending. rewrite flat_map_app. cbn.
    rewrite app_nil_r, <- app_assoc. reflexivity.
Qed.

Lemma enqueue_all_ok ps : forall c,
  Forall (fun q => tot_len q < 2 ^ 16) ps -> Forall entry_ok (PacketQueue c) ->
  Forall entry_ok (PacketQueue (fold_left LibTCPEnqueuePacket ps c)).
Proof.
  induction ps as [|q ps IH]; intros c Hps Hok; cbn [fold_left]; trivial.
  inversion Hps as [|? ? Hq Hrest]; subst.
  apply IH; trivial. cbn. apply Forall_app. split; trivial.
  constructor; [|constructor]. unfold entry_ok, tot_len in *; cbn. lia.
Qed.

(** X1.  What is queued comes back in arrival order.  After the pbufs
    [ps] were queued one after the other behind what was pending, a read
    of [n] returns the first [n] bytes of what was pending followed by the
    bytes of [ps] in that order, and leaves the bytes after them pending. *)
Theorem queued_data_is_read_in_order c ps n :
  Forall entry_ok (PacketQueue c) ->
  Forall (fun q => tot_len q < 2 ^ 16) ps ->
  0 <= n < 2 ^ 32 ->
  exists r,
    LibTCPGetDataFromConnectionQueue (fold_left LibTCPEnqueuePacket ps c) n = Some r /\
    RecvBuffer r = firstn (Z.to_nat n) (pending (PacketQueue c) ++ concat ps) /\
    pending (PacketQueue (Connection r)) =
      skipn (Z.to_nat n) (pending (PacketQueue c) ++ concat ps).
Proof.
  intros Hok Hps Hn.
  destruct (read_any (fold_left LibTCPEnqueuePacket ps c) n) as (r & Hr & B & _ & P & _);
    trivial; [apply enqueue_all_ok; trivial|].
  rewrite enqueue_all_pending in B, P. exists r. repeat split; trivial.
Qed.

(** *** The end of the data *)

Lemma live_nothing_pending Q :
  Forall entry_live Q -> pending Q = [] -> Q = [].
Proof.
  destruct Q as [|qp Q]; trivial. intros Hlive Hp.
  inversion Hlive as [|? ? Hqp _]; subst.
  pose proof (unread_length qp (entry_live_ok _ Hqp)) as Hlen.
  destruct Hqp as [Hoff _].
  rewrite pending_cons in Hp. apply app_eq_nil in Hp. destruct Hp as [Hu _].
  rewrite Hu in Hlen. cbn in Hlen. lia.
Qed.

(** A read that takes all that is pending, and the reads after it. *)
Lemma drain_then_status c n :
  PacketQueue c <> [] -> Forall entry_live (PacketQueue c) ->
  Z.of_nat (List.length (pending (PacketQueue c))) <= n < 2 ^ 32 ->
  exists r,
    LibTCPGetDataFromConnectionQueue c n = Some r /\
    Status r = STATUS_SUCCESS /\
    RecvBuffer r = pending (PacketQueue c) /\
    Connection r = set_PacketQueue c [] /\
    forall m,
      LibTCPGetDataFromConnectionQueue (Connection r) m =
      Some (mkResult (if ReceiveShutdown c then ReceiveShutdownStatus c
                      else STATUS_PENDING) 0 [] (Connection r) [] []).
Proof.
  intros Hne Hlive Hn.
  assert (Hok : Forall entry_ok (PacketQueue c))
    by (eapply Forall_impl; [|exact Hlive]; apply entry_live_ok).
  destruct (read_nonempty c n Hne Hok) as (r & Hr & St & B & _ & Cn & P & _); [lia|].
  destruct (read_live c n Hlive) as (r' & Hr' & Hl & _).
  rewrite Hr in Hr'; injection Hr' as <-.
  rewrite skipn_all2 in P by lia.
  pose proof (live_nothing_pending _ Hl P) as Hq.
  rewrite Hq in Cn.
  exists r. repeat split; trivial.
  - rewrite B. apply firstn_all2. lia.
  - intros m. rewrite Cn. reflexivity.
Qed.

(** X5.  The stored terminal status comes after the last byte.  On a
    non-empty queue whose entries all have unread bytes, a read with a
    buffer that holds all pending bytes returns STATUS_SUCCESS with all of
    them and empties the queue; every read after that returns zero bytes
    with ReceiveShutdownStatus if ReceiveShutdown is set and STATUS_PENDING
    if it is not, and leaves the connection alone. *)
Theorem status_follows_data c n :
  PacketQueue c <> [] -> Forall entry_live (PacketQueue c) ->
  Z.of_nat (List.length (pending (PacketQueue c))) <= n < 2 ^ 32 ->
  exists r,
    LibTCPGetDataFromConnectionQueue c n = Some r /\
    Status r = STATUS_SUCCESS /\
    RecvBuffer r = pending (PacketQueue c) /\
    Connection r = set_PacketQueue c [] /\
    forall m,
      LibTCPGetDataFromConnectionQueue (Connection r) m =
      Some (mkResult (if ReceiveShutdown c then ReceiveShutdownStatus c
                      else STATUS_PENDING) 0 [] (Connection r) [] []).
Proof. exact (drain_then_status c n). Qed.

Lemma read_connection c n r :
  LibTCPGetDataFromConnectionQueue c n = Some r ->
  Connection r = set_PacketQueue c (PacketQueue (Connection r)).
Proof.
  unfold LibTCPGetDataFromConnectionQueue.
  destruct (PacketQueue c) as [|qp Q] eqn:EQ.
  - intros [= <-]. cbn. destruct c; reflexivity.
  - destruct (read_loop _ _) as [s'|]; [|discriminate].
    destruct (rd_Status s'); [|discriminate]. intros [= <-]. reflexivity.
Qed.

End Facts.

(** *** Closed instances *)

Lemma entries_stay_live_witness :
  Forall entry_live (PacketQueue Sample.three_segments) /\
  exists r,
    LibTCPGetDataFromConnectionQueue (nt := Sample.nt) Sample.three_segments 4 = Some r /\
    Forall entry_live (PacketQueue (Connection r)).
Proof.
  split; [apply three_segments_live|].
  exact (proj1 (entries_stay_live (nt := Sample.nt) Sample.three_segments
                  three_segments_live) 4).
Defined.

Lemma reads_compose_witness :
  (Forall entry_ok (PacketQueue Sample.three_segments) /\
   0 <= 4 < 2 ^ 32 /\ 0 <= 6 < 2 ^ 32) /\
  exists r1 r2,
    LibTCPGetDataFromConnectionQueue (nt := Sample.nt) Sample.three_segments 4 = Some r1 /\
    LibTCPGetDataFromConnectionQueue (nt := Sample.nt) (Connection r1) 6 = Some r2 /\
    RecvBuffer r1 ++ RecvBuffer r2 =
      firstn 10 (pending (PacketQueue Sample.three_segments)).
Proof.
  assert (H4 : 0 <= 4 < 2 ^ 32) by lia.
  assert (H6 : 0 <= 6 < 2 ^ 32) by lia.
  split; [split; [apply three_segments_ok | split; [exact H4 | exact H6]]|].
  destruct (reads_compose (nt := Sample.nt) Sample.three_segments 4 6
              three_segments_ok H4 H6) as (r1 & r2 & Hr1 & Hr2 & Hb & _).
  exists r1, r2. repeat split; trivial.
Defined.

Lemma queued_data_is_read_in_order_witness :
  let ps := map p (PacketQueue Sample.three_segments) in
  (Forall entry_ok (PacketQueue Sample.open) /\
   Forall (fun q => tot_len q < 2 ^ 16) ps /\ 0 <= 10 < 2 ^ 32) /\
  exists r,
    LibTCPGetDataFromConnectionQueue (nt := Sample.nt)
      (fold_left LibTCPEnqueuePacket ps Sample.open) 10 = Some r /\
    RecvBuffer r = firstn 10 (concat ps).
Proof.
  intros ps.
  assert (Hopen : Forall entry_ok (PacketQueue Sample.open)) by constructor.
  assert (Hps : Forall (fun q => tot_len q < 2 ^ 16) ps) by (repeat constructor).
  assert (Hn : 0 <= 10 < 2 ^ 32) by lia.
  split; [split; [exact Hopen | split; [exact Hps | exact Hn]]|].
  destruct (queued_data_is_read_in_order (nt := Sample.nt) Sample.open ps 10
              Hopen Hps Hn) as (r & Hr & Hb & _).
  exists r. split; trivial.
Defined.

Lemma status_follows_data_witness :
  (PacketQueue Sample.three_segments <> [] /\
   Forall entry_live (PacketQueue Sample.three_segments) /\
   Z.of_nat (List.length (pending (PacketQueue Sample.three_segments))) <= 20 < 2 ^ 32) /\
  exists r,
    LibTCPGetDataFromConnectionQueue (nt := Sample.nt) Sample.three_segments 20 = Some r /\
    RecvBuffer r = pending (PacketQueue Sample.three_segments) /\
    Connection r = Sample.open.
Proof.
  assert (Hne : PacketQueue Sample.three_segments <> []) by discriminate.
  assert (Hn : Z.of_nat (List.length (pending (PacketQueue Sample.three_segments)))
               <= 20 < 2 ^ 32) by (cbn; lia).
  split; [split; [exact Hne | split; [apply three_segments_live | exact Hn]]|].
  destruct (status_follows_data (nt := Sample.nt) Sample.three_segments 20
              Hne three_segments_live Hn) as (r & Hr & _ & Hb & Hc & _).
  exists r. repeat split; trivial.
Defined.

End QueueMore.

(** ** More on the bridge *)

Module BridgeMore.
Import Bridge BridgeFacts.

Section Facts.
Context {nt : NtDriver} {lwip : LwIP}.

Ltac exec :=
  repeat (progress (unfold bind, ret, connection, update, read_pcb_state,
                      tcp_sndbuf, call, call_err, call_pcb, notify, when,
                      after_call); cbn); cbn.

(** *** The operation bodies in one piece *)

Lemma Send_body msg w :
  LibTCPSendCallback msg w =
  match SocketContext (Conn w) with
  | None => (KeSetEvent (set_Error msg ERR_CLSD), w)
  | Some pcb =>
      if SendShutdown (Conn w) then (KeSetEvent (set_Error msg ERR_CLSD), w)
      else
        let window := u16_t (snd_buf (Eng w) pcb) in
        let len := UINT (Input_DataLength msg) in
        if window =? 0 then (KeSetEvent (set_Error msg ERR_INPROGRESS), w)
        else
          let n := MIN window len in
          let flags := if window <? len
                       then Z.lor TCP_WRITE_FLAG_COPY TCP_WRITE_FLAG_MORE
                       else TCP_WRITE_FLAG_COPY in
          let write := c_tcp_write pcb (Input_Data msg) n flags in
          let e := lwip_err (Eng w) write in
          if err_eqb e ERR_OK then
            (KeSetEvent (set_Information (set_Error msg e) n),
             after_call (after_call w write) (c_tcp_output pcb))
          else
            (KeSetEvent (set_Error msg (if err_eqb e ERR_MEM then ERR_INPROGRESS else e)),
             after_call w write)
  end.
Proof.
  unfold LibTCPSendCallback. exec.
  destruct (SocketContext (Conn w)) as [pcb|]; [|reflexivity].
  destruct (SendShutdown (Conn w)); [reflexivity|]. exec.
  destruct (u16_t (snd_buf (Eng w) pcb) =? 0); [reflexivity|].
  unfold MIN.
  destruct (u16_t (snd_buf (Eng w) pcb) <? UINT (Input_DataLength msg)); exec;
    match goal with
    | |- context [err_eqb ?e ERR_OK] =>
        destruct (err_eqb e ERR_OK); exec; [reflexivity|];
        destruct (err_eqb e ERR_MEM); reflexivity
    end.
Qed.

Lemma Shutdown_body msg w :
  LibTCPShutdownCallback msg w =
  match SocketContext (Conn w) with
  | None => (KeSetEvent (set_Error msg ERR_CLSD), w)
  | Some pcb =>
      let c := c_tcp_shutdown pcb (Input_shut_rx msg) (Input_shut_tx msg) in
      let e := lwip_err (Eng w) c in
      let c0 := Conn w in
      let c1 := match pcb_state (Eng w) pcb with
                | CLOSE_WAIT => set_SocketContext c0 None
                | _ => c0
                end in
      let c2 := if truth (Input_shut_rx msg)
                then set_ReceiveShutdown c1 true STATUS_FILE_CLOSED else c1 in
      let c3 := if truth (Input_shut_tx msg) then set_SendShutdown c2 true else c2 in
      (KeSetEvent (set_Error msg e),
       mkWorld (if err_eqb e ERR_OK then c3 else c0)
               (lwip_step (Eng w) c) (Trace w ++ [Called c]))
  end.
Proof.
  unfold LibTCPShutdownCallback. exec.
  destruct (SocketContext (Conn w)) as [pcb|] eqn:Hpcb; [|reflexivity]. exec.
  destruct (err_eqb (lwip_err (Eng w)
              (c_tcp_shutdown pcb (Input_shut_rx msg) (Input_shut_tx msg))) ERR_OK)
    eqn:Ee;
    destruct (pcb_state (Eng w) pcb); exec; rewrite ?Ee; exec;
    try (destruct (truth (Input_shut_rx msg)), (truth (Input_shut_tx msg));
         reflexivity);
    f_equal; f_equal; rewrite <- Hpcb; destruct (Conn w); reflexivity.
Qed.


(** X8.  With room for the whole request (tcp_sndbuf not below the
    length, and not zero) the Send body, on a live pcb with SendShutdown
    clear, calls tcp_write once for the whole length with the COPY flag
    alone, and when lwIP returns ERR_OK it calls tcp_output and stores the
    whole length in the request's output. *)
Theorem Send_writes_whole_request msg w pcb :
  SocketContext (Conn w) = Some pcb -> SendShutdown (Conn w) = false ->
  0 < u16_t (snd_buf (Eng w) pcb) ->
  UINT (Input_DataLength msg) <= u16_t (snd_buf (Eng w) pcb) ->
  let len := UINT (Input_DataLength msg) in
  let write := c_tcp_write pcb (Input_Data msg) len TCP_WRITE_FLAG_COPY in
  let e := lwip_err (Eng w) write in
  let r := LibTCPSendCallback msg w in
  Trace (snd r) =
    Trace w ++ Called write ::
      (if err_eqb e ERR_OK then [Called (c_tcp_output pcb)] else []) /\
  (e = ERR_OK -> Output_Error (fst r) = ERR_OK /\ Output_Information (fst r) = len).
Proof.
  intros Hpcb Hsh Hpos Hroom len write e r.
  unfold r. rewrite Send_body, Hpcb, Hsh. cbv zeta.
  replace (u16_t (snd_buf (Eng w) pcb) =? 0) with false
    by (symmetry; apply Z.eqb_neq; lia).
  replace (u16_t (snd_buf (Eng w) pcb) <? UINT (Input_DataLength msg)) with false
    by (symmetry; apply Z.ltb_ge; lia).
  unfold MIN.
  replace (u16_t (snd_buf (Eng w) pcb) <? UINT (Input_DataLength msg)) with false
    by (symmetry; apply Z.ltb_ge; lia).
  fold len. fold write. fold e.
  destruct (err_eqb e ERR_OK) eqn:Ee; cbn.
  - rewrite <- app_assoc. split; [reflexivity|]. intros He. rewrite He. split; reflexivity.
  - split; [reflexivity|]. intros He. rewrite He, err_eqb_refl in Ee. discriminate.
Qed.

(** X9.  Whatever it is given, the Send body leaves the connection
    endpoint as it was, sets the request's event, never leaves ERR_MEM as
    the result (a tcp_write that ran out of memory is reported as
    ERR_INPROGRESS), and reports success only on a live pcb, with a length
    that is neither above the requested length nor above tcp_sndbuf. *)
Theorem Send_body_bounds msg w :
  let r := LibTCPSendCallback msg w in
  Conn (snd r) = Conn w /\
  msg_Event (fst r) = true /\
  Output_Error (fst r) <> ERR_MEM /\
  (Output_Error (fst r) = ERR_OK ->
   exists pcb,
     SocketContext (Conn w) = Some pcb /\
     0 <= Output_Information (fst r) <= u16_t (snd_buf (Eng w) pcb) /\
     Output_Information (fst r) <= UINT (Input_DataLength msg)).
Proof.
  intros r. unfold r. rewrite Send_body.
  destruct (SocketContext (Conn w)) as [pcb|];
    [|cbn; repeat split; discriminate].
  destruct (SendShutdown (Conn w)); [cbn; repeat split; discriminate|].
  cbv zeta.
  destruct (Z.eqb_spec (u16_t (snd_buf (Eng w) pcb)) 0) as [Hz | Hnz];
    [cbn; repeat split; discriminate|].
  pose proof (u16_t_range (snd_buf (Eng w) pcb)) as Hw.
  pose proof (QueueFacts.UINT_range (Input_DataLength msg)) as Hl.
  set (window := u16_t (snd_buf (Eng w) pcb)) in *.
  set (len := UINT (Input_DataLength msg)) in *.
  set (e := lwip_err (Eng w) _).
  destruct (err_eqb e ERR_OK) eqn:Ee; cbn.
  - apply err_eqb_eq in Ee. rewrite Ee.
    split; [reflexivity|]. split; [reflexivity|]. split; [discriminate|].
    intros _. exists pcb. split; [reflexivity|].
    destruct (QueueFacts.MIN_cases window len) as [[? ->] | [? ->]]; lia.
  - split; [reflexivity|]. split; [reflexivity|].
    destruct (err_eqb e ERR_MEM) eqn:Em.
    + split; [discriminate|]. discriminate.
    + split.
      * intros He. rewrite He, err_eqb_refl in Em. discriminate.
      * intros He. rewrite He, err_eqb_refl in Ee. discriminate.
Qed.

(** *** One operation after another *)

(** X10.  After a Shutdown body that was asked to shut the write
    direction and succeeded, every Send body sets ERR_CLSD, calls nothing on
    lwIP and changes nothing. *)
Theorem Send_after_write_shutdown msg msg' w :
  let r := LibTCPShutdownCallback msg w in
  truth (Input_shut_tx msg) = true -> Output_Error (fst r) = ERR_OK ->
  LibTCPSendCallback msg' (snd r) = (KeSetEvent (set_Error msg' ERR_CLSD), snd r).
Proof.
  intros r Htx. unfold r. rewrite Shutdown_body.
  destruct (SocketContext (Conn w)) as [pcb|] eqn:Hpcb; [|discriminate].
  cbv zeta. cbn [fst snd Output_Error KeSetEvent set_Error].
  intros He. rewrite He, err_eqb_refl, Htx, Send_body. cbn.
  destruct (pcb_state (Eng w) pcb), (truth (Input_shut_rx msg)); cbn;
    rewrite ?Hpcb; reflexivity.
Qed.

(** X11.  After a Shutdown body that was asked to shut the read direction
    and succeeded, a read of the empty queue returns STATUS_FILE_CLOSED
    with zero bytes; while something is still queued a read returns
    STATUS_SUCCESS, so shutting the read direction does not throw queued
    data away. *)
Theorem read_after_read_shutdown msg w RecvLen :
  let r := LibTCPShutdownCallback msg w in
  truth (Input_shut_rx msg) = true -> Output_Error (fst r) = ERR_OK ->
  PacketQueue (Conn (snd r)) = PacketQueue (Conn w) /\
  (PacketQueue (Conn w) = [] ->
     Queue.LibTCPGetDataFromConnectionQueue (Conn (snd r)) RecvLen =
     Some (Queue.mkResult STATUS_FILE_CLOSED 0 [] (Conn (snd r)) [] [])) /\
  (PacketQueue (Conn w) <> [] ->
     exists res,
       Queue.LibTCPGetDataFromConnectionQueue (Conn (snd r)) RecvLen = Some res /\
       Queue.Status res = STATUS_SUCCESS).
Proof.
  intros r Hrx. unfold r. rewrite Shutdown_body.
  destruct (SocketContext (Conn w)) as [pcb|] eqn:Hpcb; [|discriminate].
  cbv zeta. cbn [fst snd Output_Error KeSetEvent set_Error].
  intros He. rewrite He, err_eqb_refl, Hrx. cbn [Conn].
  assert (Hq : forall c, PacketQueue
                 (if truth (Input_shut_tx msg)
                  then set_SendShutdown (set_ReceiveShutdown c true STATUS_FILE_CLOSED) true
                  else set_ReceiveShutdown c true STATUS_FILE_CLOSED) = PacketQueue c)
    by (intros c; destruct (truth (Input_shut_tx msg)); reflexivity).
  assert (Hq' : PacketQueue (match pcb_state (Eng w) pcb with
                             | CLOSE_WAIT => set_SocketContext (Conn w) None
                             | _ => Conn w
                             end) = PacketQueue (Conn w))
    by (destruct (pcb_state (Eng w) pcb); reflexivity).
  split; [rewrite Hq, Hq'; reflexivity|]. split.
  - intros Hempty. unfold Queue.LibTCPGetDataFromConnectionQueue.
    rewrite Hq, Hq', Hempty.
    destruct (truth (Input_shut_tx msg)); reflexivity.
  - intros Hne. apply QueueFacts.read_nonempty_status. rewrite Hq, Hq'. exact Hne.
Qed.

Lemma emptied_empty w : PacketQueue (Conn w) = [] -> emptied w = w.
Proof.
  intros H. unfold emptied. rewrite H. cbn.
  rewrite app_nil_r, <- H, set_PacketQueue_same. apply world_same.
Qed.

Lemma Close_ok_severs msg w :
  Output_Error (fst (LibTCPCloseCallback msg w)) = ERR_OK ->
  SocketContext (Conn (snd (LibTCPCloseCallback msg w))) = None.
Proof.
  rewrite Close_callback_spec. cbv zeta.
  destruct (SocketContext (Conn w)) as [pcb|] eqn:Hpcb; [|intros _; exact Hpcb].
  match goal with |- context [if ?b then _ else _] => destruct b end; cbn.
  - reflexivity.
  - intros He. rewrite He, err_eqb_refl. reflexivity.
Qed.

(** X12.  Close can be repeated.  After a Close body that set ERR_OK, the
    pcb pointer is NULL and the queue empty, and another Close body sets
    ERR_OK again without calling lwIP or changing anything. *)
Theorem Close_twice msg msg' w :
  let r := LibTCPCloseCallback msg w in
  Output_Error (fst r) = ERR_OK ->
  SocketContext (Conn (snd r)) = None /\
  PacketQueue (Conn (snd r)) = [] /\
  LibTCPCloseCallback msg' (snd r) = (KeSetEvent (set_Error msg' ERR_OK), snd r).
Proof.
  intros r Hok. unfold r in *.
  pose proof (Close_ok_severs msg w Hok) as Hnull.
  pose proof (Close_callback_queue msg w) as Hq.
  split; [exact Hnull|]. split; [exact Hq|].
  rewrite Close_callback_spec. cbv zeta. rewrite Hnull, (emptied_empty _ Hq).
  reflexivity.
Qed.


(** *** When no request can be allocated *)

(** X13.  When the lookaside list hands out no request, Bind, Connect,
    Send, Shutdown and Close return ERR_MEM and Socket and Listen return a
    NULL pcb; nothing is queued for the tcpip thread, the connection and
    lwIP are untouched, and Send stores nothing through [sent]. *)
Theorem allocation_failure s w :
  ExAllocateFromNPagedLookasideList s = None ->
  (forall arg, LibTCPSocket s arg w = (None, w)) /\
  (forall ipaddr port, LibTCPBind s ipaddr port w = (ERR_MEM, w)) /\
  (forall backlog, LibTCPListen s backlog w = (None, w)) /\
  (forall data len safe, LibTCPSend s data len safe w = ((ERR_MEM, None), w)) /\
  (forall ipaddr port, LibTCPConnect s ipaddr port w = (ERR_MEM, w)) /\
  (forall shut_rx shut_tx, LibTCPShutdown s shut_rx shut_tx w = (ERR_MEM, w)) /\
  (forall safe callback, LibTCPClose s safe callback w = (ERR_MEM, w)).
Proof.
  intros Hnone.
  unfold LibTCPSocket, LibTCPBind, LibTCPListen, LibTCPSend, LibTCPConnect,
    LibTCPShutdown, LibTCPClose.
  rewrite Hnone. repeat split.
Qed.

(** *** Registrations *)

(** X14.  The Connect body never leaves ERR_OK as the result.  On a live
    pcb it registers the receive and the sent callbacks, in that order,
    before it calls tcp_connect, and the result is ERR_INPROGRESS when
    tcp_connect returned ERR_OK and what tcp_connect returned otherwise. *)
Theorem Connect_registers_first msg w :
  let r := LibTCPConnectCallback msg w in
  Output_Error (fst r) <> ERR_OK /\
  Conn (snd r) = Conn w /\
  forall pcb, SocketContext (Conn w) = Some pcb ->
    let connect := c_tcp_connect pcb (Input_IpAddress msg) (ntohs (Input_Port msg)) in
    let e := lwip_err (lwip_step (lwip_step (Eng w) (c_tcp_recv pcb)) (c_tcp_sent pcb))
               connect in
    Trace (snd r) =
      Trace w ++ [Called (c_tcp_recv pcb); Called (c_tcp_sent pcb); Called connect] /\
    Output_Error (fst r) = (if err_eqb e ERR_OK then ERR_INPROGRESS else e).
Proof.
  intros r. unfold r, LibTCPConnectCallback. exec.
  destruct (SocketContext (Conn w)) as [pcb|]; exec.
  - set (e := lwip_err _ _).
    split; [|split; [reflexivity|]].
    + destruct (err_eqb e ERR_OK) eqn:Ee; [discriminate|].
      intros He. rewrite He, err_eqb_refl in Ee. discriminate.
    + intros pcb' [= <-]. fold e. rewrite <- !app_assoc. split; reflexivity.
  - split; [discriminate|]. split; [reflexivity|]. intros pcb; discriminate.
Qed.

Lemma blocking_ran s (cb : lwip_callback_msg -> M lwip_callback_msg) msg w :
  tcpip_ran s = true -> tcpip_callback_with_block s cb msg w = cb msg w.
Proof. intros H. unfold tcpip_callback_with_block. rewrite H. reflexivity. Qed.

Lemma Socket_body msg w :
  LibTCPSocketCallback msg w =
  let NewPcb := lwip_pcb (Eng w) c_tcp_new in
  let w1 := after_call w c_tcp_new in
  (KeSetEvent (set_NewPcb msg NewPcb),
   match NewPcb with
   | Some pcb => after_call (after_call w1 (c_tcp_arg pcb (Input_Arg msg))) (c_tcp_err pcb)
   | None => w1
   end).
Proof.
  unfold LibTCPSocketCallback. exec.
  destruct (lwip_pcb (Eng w) c_tcp_new); reflexivity.
Qed.

Lemma Listen_body msg w :
  LibTCPListenCallback msg w =
  match SocketContext (Conn w) with
  | None => (KeSetEvent (set_NewPcb msg None), w)
  | Some pcb =>
      let listen := c_tcp_listen_with_backlog pcb (Input_Backlog msg) in
      let NewPcb := lwip_pcb (Eng w) listen in
      let w1 := after_call w listen in
      (KeSetEvent (set_NewPcb msg NewPcb),
       match NewPcb with
       | Some l => after_call w1 (c_tcp_accept l)
       | None => w1
       end)
  end.
Proof.
  unfold LibTCPListenCallback. exec.
  destruct (SocketContext (Conn w)) as [pcb|]; [|reflexivity]. exec.
  destruct (lwip_pcb _ _); reflexivity.
Qed.

Lemma Socket_ran s m0 arg w :
  ExAllocateFromNPagedLookasideList s = Some m0 -> tcpip_ran s = true ->
  let r := LibTCPSocketCallback (Input_Socket (KeInitializeEvent m0) arg) w in
  LibTCPSocket s arg w =
  (if WaitForEventSafely s then Output_NewPcb (fst r) else None, snd r).
Proof.
  intros Ha Hran r. unfold LibTCPSocket, bind, ret. rewrite Ha, blocking_ran by trivial.
  fold r. destruct r; reflexivity.
Qed.

Lemma Listen_ran s m0 backlog w :
  ExAllocateFromNPagedLookasideList s = Some m0 -> tcpip_ran s = true ->
  let r := LibTCPListenCallback (Input_Listen (KeInitializeEvent m0) (backlog mod 2 ^ 8)) w in
  LibTCPListen s backlog w =
  (if WaitForEventSafely s then Output_NewPcb (fst r) else None, snd r).
Proof.
  intros Ha Hran r. unfold LibTCPListen, bind, ret. rewrite Ha, blocking_ran by trivial.
  fold r. destruct r; reflexivity.
Qed.

(** X15.  A pcb handed back is a pcb with its callbacks in place.  When
    the request was allocated and run: a pcb returned by Socket was made by
    tcp_new and then given the caller's argument and the error callback;
    a pcb returned by Listen came from tcp_listen_with_backlog on the
    connection's live pcb and then got the accept callback. *)
Theorem returned_pcb_is_registered s m0 w :
  ExAllocateFromNPagedLookasideList s = Some m0 -> tcpip_ran s = true ->
  (forall arg pcb,
     fst (LibTCPSocket s arg w) = Some pcb ->
     Trace (snd (LibTCPSocket s arg w)) =
       Trace w ++ [Called c_tcp_new; Called (c_tcp_arg pcb arg); Called (c_tcp_err pcb)]) /\
  (forall backlog l,
     fst (LibTCPListen s backlog w) = Some l ->
     exists pcb,
       SocketContext (Conn w) = Some pcb /\
       Trace (snd (LibTCPListen s backlog w)) =
         Trace w ++ [Called (c_tcp_listen_with_backlog pcb (backlog mod 2 ^ 8));
                     Called (c_tcp_accept l)]).
Proof.
  intros Ha Hran. split.
  - intros arg pcb. rewrite (Socket_ran s m0 arg w Ha Hran). cbv zeta.
    rewrite Socket_body. cbv zeta. cbn [fst snd].
    destruct (WaitForEventSafely s); [|discriminate]. cbn.
    intros ->. cbn. rewrite <- !app_assoc. reflexivity.
  - intros backlog l. rewrite (Listen_ran s m0 backlog w Ha Hran). cbv zeta.
    rewrite Listen_body.
    destruct (SocketContext (Conn w)) as [pcb|]; cbv zeta; cbn [fst snd];
      (destruct (WaitForEventSafely s); [|discriminate]); cbn; [|discriminate].
    intros ->. exists pcb. cbn. rewrite <- !app_assoc. split; reflexivity.
Qed.

(** *** Data arrivals *)

Lemma run_app ops ops' w : run (ops ++ ops') w = run ops' (run ops w).
Proof. unfold run. apply fold_left_app. Qed.

Lemma run_cons op ops w : run (op :: ops) w = run ops (step op w).
Proof. reflexivity. Qed.

(** X17.  Callbacks for a closed socket are ignored.  Over any sequence
    of callbacks that lwIP makes with a NULL argument, the connection stays
    as it was, the upper layer is told nothing, and the only calls on lwIP
    are one pbuf_free for each pbuf the receive callback was given, in
    order: a pbuf that arrives late is freed, not queued and not leaked.
    Each such callback that returns an error code returns ERR_OK. *)
Theorem late_callbacks_are_ignored ops : forall w,
  Forall socket_closed ops ->
  (Conn (run ops w) = Conn w /\
   Trace (run ops w) =
     Trace w ++ map (fun q => Called (c_pbuf_free q)) (flat_map brought ops) /\
   Eng (run ops w) =
     fold_left lwip_step (map c_pbuf_free (flat_map brought ops)) (Eng w)) /\
  (forall pcb space, fst (InternalSendEventHandler None pcb space w) = ERR_OK) /\
  (forall pcb q err, fst (InternalRecvEventHandler None pcb q err w) = ERR_OK) /\
  (forall pcb err, fst (InternalConnectEventHandler None pcb err w) = ERR_OK).
Proof.
  induction ops as [|op ops IH]; intros w Hops.
  - split; [|repeat split; intros; try destruct q; reflexivity].
    cbn. rewrite app_nil_r. repeat split.
  - inversion Hops as [|? ? Hop Hrest]; subst.
    split; [|repeat split; intros; try destruct q; reflexivity].
    rewrite run_cons.
    destruct (IH (step op w) Hrest) as ((Hc & Ht & He) & _).
    rewrite Hc, Ht, He.
    destruct op as [msg|msg|msg|msg|msg|msg|msg|arg pcb space|arg pcb q err
                   |arg pcb err|arg err|RecvLen];
      try contradiction; destruct arg as [a|]; try contradiction;
      cbn [step brought flat_map app map fold_left].
    + repeat split.
    + destruct q as [q|]; cbn;
        unfold InternalRecvEventHandler; exec.
      * rewrite <- app_assoc. repeat split.
      * repeat split.
    + repeat split.
    + repeat split.
Qed.

(** *** What holds along every run *)

Lemma never_reopened_refl c : never_reopened c c.
Proof. unfold never_reopened; auto. Qed.

Lemma never_reopened_trans a b c :
  never_reopened a b -> never_reopened b c -> never_reopened a c.
Proof. unfold never_reopened; intros (R1 & S1 & P1) (R2 & S2 & P2); auto. Qed.

Lemma Socket_conn msg w : Conn (snd (LibTCPSocketCallback msg w)) = Conn w.
Proof. rewrite Socket_body. cbv zeta. destruct (lwip_pcb _ _); reflexivity. Qed.

Lemma Bind_conn msg w : Conn (snd (LibTCPBindCallback msg w)) = Conn w.
Proof.
  unfold LibTCPBindCallback. exec. destruct (SocketContext (Conn w)); reflexivity.
Qed.

Lemma Listen_conn msg w : Conn (snd (LibTCPListenCallback msg w)) = Conn w.
Proof.
  rewrite Listen_body. destruct (SocketContext (Conn w)); [|reflexivity].
  cbv zeta. destruct (lwip_pcb _ _); reflexivity.
Qed.

Lemma Send_conn msg w : Conn (snd (LibTCPSendCallback msg w)) = Conn w.
Proof.
  rewrite Send_body. destruct (SocketContext (Conn w)); [|reflexivity].
  destruct (SendShutdown (Conn w)); [reflexivity|]. cbv zeta.
  destruct (_ =? 0); [reflexivity|].
  destruct (err_eqb _ ERR_OK); reflexivity.
Qed.

Lemma Connect_conn msg w : Conn (snd (LibTCPConnectCallback msg w)) = Conn w.
Proof.
  unfold LibTCPConnectCallback. exec. destruct (SocketContext (Conn w)); reflexivity.
Qed.

(** What one operation can do to the endpoint: leave it, change its
    queue, set shutdown flags, or take its pcb pointer away. *)
Lemma step_never_reopened op w : never_reopened (Conn w) (Conn (step op w)).
Proof.
  destruct op as [msg|msg|msg|msg|msg|msg|msg|arg pcb space|arg pcb q err|arg pcb err|arg err|RecvLen]; cbn [step].
  - rewrite Socket_conn. apply never_reopened_refl.
  - rewrite Bind_conn. apply never_reopened_refl.
  - rewrite Listen_conn. apply never_reopened_refl.
  - rewrite Send_conn. apply never_reopened_refl.
  - rewrite Connect_conn. apply never_reopened_refl.
  - rewrite Shutdown_body.
    destruct (SocketContext (Conn w)) as [pcb|] eqn:Hpcb;
      [|apply never_reopened_refl].
    cbv zeta. cbn [snd Conn].
    destruct (err_eqb _ ERR_OK); [|apply never_reopened_refl].
    destruct (pcb_state (Eng w) pcb), (truth (Input_shut_rx msg)),
      (truth (Input_shut_tx msg));
      unfold never_reopened; cbn; repeat split; auto; discriminate.
  - rewrite Close_callback_spec. cbv zeta.
    destruct (SocketContext (Conn w)) as [pcb|] eqn:Hpcb.
    + match goal with |- context [if ?b then _ else _] => destruct b end;
        cbn [snd Conn]; [|destruct (err_eqb _ ERR_OK)];
        unfold never_reopened; cbn; repeat split; auto; congruence.
    + unfold never_reopened; cbn; repeat split; auto; congruence.
  - unfold InternalSendEventHandler. exec. destruct arg; apply never_reopened_refl.
  - unfold InternalRecvEventHandler. exec.
    destruct arg, q; exec; try apply never_reopened_refl.
    + unfold never_reopened; cbn; repeat split; auto.
    + destruct (err_eqb err ERR_OK); exec; [|apply never_reopened_refl].
      destruct (SocketContext (Conn w)); exec;
        unfold never_reopened; cbn; repeat split; auto.
  - unfold InternalConnectEventHandler. exec. destruct arg; apply never_reopened_refl.
  - unfold InternalErrorEventHandler. exec.
    destruct arg; [|apply never_reopened_refl].
    destruct (PacketQueue (Conn w)); exec; [apply never_reopened_refl|].
    unfold never_reopened; cbn; repeat split; auto.
  - destruct (Queue.LibTCPGetDataFromConnectionQueue (Conn w) RecvLen) as [r|] eqn:Hr;
      [|apply never_reopened_refl].
    cbn [Conn]. rewrite (QueueMore.read_connection _ _ _ Hr).
    unfold never_reopened; cbn; repeat split; auto.
Qed.

Lemma run_never_reopened ops : forall w, never_reopened (Conn w) (Conn (run ops w)).
Proof.
  induction ops as [|op ops IH]; intros w; [apply never_reopened_refl|].
  rewrite run_cons. eapply never_reopened_trans; [apply step_never_reopened | apply IH].
Qed.

(** X18.  A direction that is shut down stays shut down.  Whatever
    operation bodies, lwIP callbacks and reads follow, in whatever order
    and with whatever arguments and lwIP answers, a ReceiveShutdown or
    SendShutdown flag that is set is still set afterwards. *)
Theorem shutdown_flags_stay_set ops w :
  (ReceiveShutdown (Conn w) = true -> ReceiveShutdown (Conn (run ops w)) = true) /\
  (SendShutdown (Conn w) = true -> SendShutdown (Conn (run ops w)) = true).
Proof.
  destruct (run_never_reopened ops w) as (R & S & _). split; trivial.
Qed.

(** X19.  The pcb pointer never comes back.  Whatever operation bodies,
    lwIP callbacks and reads follow, a connection whose pcb pointer is NULL
    keeps it NULL, and a pcb pointer found afterwards is the one the
    connection had before. *)
Theorem pcb_pointer_never_comes_back ops w :
  (SocketContext (Conn w) = None -> SocketContext (Conn (run ops w)) = None) /\
  (forall pcb, SocketContext (Conn (run ops w)) = Some pcb ->
               SocketContext (Conn w) = Some pcb).
Proof.
  destruct (run_never_reopened ops w) as (_ & _ & P). split; [|exact P].
  intros Hnull. destruct (SocketContext (Conn (run ops w))) as [pcb|] eqn:E; trivial.
  rewrite (P pcb eq_refl) in Hnull. discriminate.
Qed.

Lemma step_live op w :
  arrival_ok op -> Forall QueueFacts.entry_live (PacketQueue (Conn w)) ->
  Forall QueueFacts.entry_live (PacketQueue (Conn (step op w))).
Proof.
  intros Hop Hlive. destruct op as [msg|msg|msg|msg|msg|msg|msg|arg pcb space|arg pcb q err|arg pcb err|arg err|RecvLen]; cbn [step].
  - now rewrite Socket_conn.
  - now rewrite Bind_conn.
  - now rewrite Listen_conn.
  - now rewrite Send_conn.
  - now rewrite Connect_conn.
  - rewrite Shutdown_body.
    destruct (SocketContext (Conn w)) as [pcb|]; trivial.
    cbv zeta. cbn [snd Conn].
    destruct (err_eqb _ ERR_OK); trivial.
    destruct (pcb_state (Eng w) pcb), (truth (Input_shut_rx msg)),
      (truth (Input_shut_tx msg)); exact Hlive.
  - rewrite Close_callback_queue. constructor.
  - unfold InternalSendEventHandler. exec. destruct arg; exact Hlive.
  - unfold InternalRecvEventHandler. exec.
    destruct arg as [a|], q as [q|]; exec; trivial.
    + apply (QueueMore.enqueue_live (Conn w) q Hop Hlive).
    + destruct (err_eqb err ERR_OK); exec; trivial.
      destruct (SocketContext (Conn w)); exact Hlive.
  - unfold InternalConnectEventHandler. exec. destruct arg; exact Hlive.
  - unfold InternalErrorEventHandler. exec. destruct arg; trivial.
    destruct (PacketQueue (Conn w)) eqn:EQ; exec; rewrite EQ; exact Hlive.
  - destruct (QueueMore.read_live (Conn w) RecvLen Hlive) as (r & Hr & Hl & _).
    rewrite Hr. exact Hl.
Qed.

Lemma run_live ops : forall w,
  Forall arrival_ok ops -> Forall QueueFacts.entry_live (PacketQueue (Conn w)) ->
  Forall QueueFacts.entry_live (PacketQueue (Conn (run ops w))).
Proof.
  induction ops as [|op ops IH]; intros w Hops Hlive; trivial.
  inversion Hops as [|? ? Hop Hrest]; subst.
  rewrite run_cons. apply IH; trivial. apply step_live; trivial.
Qed.

(** X20.  The assertions of the read hold along every run.  Start from a
    queue whose entries all have unread bytes, and let any operation
    bodies, lwIP callbacks and reads follow, the arriving pbufs holding 1 to
    65535 bytes: every queued entry still has an unread byte, and a read
    with a positive buffer length fails none of its assertions; if
    something is queued, that read goes through the loop and returns
    STATUS_SUCCESS with between 1 and RecvLen bytes. *)
Theorem reads_never_fail_assertions ops w RecvLen :
  Forall arrival_ok ops ->
  Forall QueueFacts.entry_live (PacketQueue (Conn w)) ->
  0 < RecvLen < 2 ^ 32 ->
  Forall QueueFacts.entry_live (PacketQueue (Conn (run ops w))) /\
  exists r,
    Queue.LibTCPGetDataFromConnectionQueue (Conn (run ops w)) RecvLen = Some r /\
    Queue.Failed r = [] /\
    (PacketQueue (Conn (run ops w)) <> [] ->
       Queue.Status r = STATUS_SUCCESS /\ 1 <= Queue.Received r <= RecvLen).
Proof.
  intros Hops Hlive Hlen.
  pose proof (run_live ops w Hops Hlive) as Hl. split; [exact Hl|].
  destruct (PacketQueue (Conn (run ops w))) as [|qp Q] eqn:EQ.
  - unfold Queue.LibTCPGetDataFromConnectionQueue. rewrite EQ.
    eexists; split; [reflexivity|]. split; [reflexivity|].
    intros H; now elim H.
  - destruct (QueueFacts.read_nonempty (Conn (run ops w)) RecvLen)
      as (r & Hr & St & B & Rc & _ & _ & _ & _ & F).
    + rewrite EQ; discriminate.
    + rewrite EQ. eapply Forall_impl; [|exact Hl]. apply QueueFacts.entry_live_ok.
    + lia.
    + exists r. split; [exact Hr|].
      split; [apply F; [rewrite EQ; exact Hl | lia]|].
      intros _. split; [exact St|].
      rewrite Rc, B, length_firstn, EQ, QueueFacts.pending_cons, length_app.
      inversion Hl as [|? ? Hqp _]; subst.
      pose proof (QueueFacts.unread_length qp (QueueFacts.entry_live_ok _ Hqp)) as Hlen'.
      destruct Hqp as [Hoff _]. lia.
Qed.

(** *** The blocking calls and their bodies *)

Lemma blocking_call {A} s (cb : lwip_callback_msg -> M lwip_callback_msg) msg
    (f : lwip_callback_msg -> A) w :
  bind (tcpip_callback_with_block s cb msg) (fun m => ret (f m)) w =
  if tcpip_ran s then (f (fst (cb msg w)), snd (cb msg w)) else (f msg, w).
Proof.
  unfold bind, ret, tcpip_callback_with_block.
  destruct (tcpip_ran s); [destruct (cb msg w)|]; reflexivity.
Qed.

Lemma inline_call {A} (cb : lwip_callback_msg -> M lwip_callback_msg) msg
    (f : lwip_callback_msg -> A) w :
  bind (cb msg) (fun m => ret (f m)) w = (f (fst (cb msg w)), snd (cb msg w)).
Proof. unfold bind, ret. destruct (cb msg w); reflexivity. Qed.

(** X26.  What a blocking call does to the connection and to lwIP does
    not depend on how its wait ends.  Once the request is allocated, the
    world after the call is the world after the operation body if the
    tcpip thread ran it (or, for Send and Close, if the caller asked for it
    to be run in place), and the world before the call otherwise; a call
    that returns ERR_CLSD because the termination event ended its wait may
    have taken effect all the same. *)
Theorem effect_does_not_wait s m0 w :
  ExAllocateFromNPagedLookasideList s = Some m0 ->
  let m := KeInitializeEvent m0 in
  (forall arg,
     snd (LibTCPSocket s arg w) =
     if tcpip_ran s then snd (LibTCPSocketCallback (Input_Socket m arg) w) else w) /\
  (forall ipaddr port,
     snd (LibTCPBind s ipaddr port w) =
     if tcpip_ran s
     then snd (LibTCPBindCallback (Input_Address m ipaddr (u16_t port)) w) else w) /\
  (forall backlog,
     snd (LibTCPListen s backlog w) =
     if tcpip_ran s
     then snd (LibTCPListenCallback (Input_Listen m (backlog mod 2 ^ 8)) w) else w) /\
  (forall data len safe,
     snd (LibTCPSend s data len safe w) =
     if truth safe || tcpip_ran s
     then snd (LibTCPSendCallback (Input_Send m data (u16_t len)) w) else w) /\
  (forall ipaddr port,
     snd (LibTCPConnect s ipaddr port w) =
     if tcpip_ran s
     then snd (LibTCPConnectCallback (Input_Address m ipaddr (u16_t port)) w) else w) /\
  (forall shut_rx shut_tx,
     snd (LibTCPShutdown s shut_rx shut_tx w) =
     if tcpip_ran s
     then snd (LibTCPShutdownCallback (Input_Shutdown m shut_rx shut_tx) w) else w) /\
  (forall safe callback,
     snd (LibTCPClose s safe callback w) =
     if truth safe || tcpip_ran s
     then snd (LibTCPCloseCallback (Input_Close m callback) w) else w).
Proof.
  intros Ha m.
  unfold LibTCPSocket, LibTCPBind, LibTCPListen, LibTCPSend, LibTCPConnect,
    LibTCPShutdown, LibTCPClose.
  rewrite Ha. fold m.
  repeat split; intros;
    try (rewrite blocking_call; destruct (tcpip_ran s); reflexivity);
    (destruct (truth safe); cbn [orb];
     [rewrite inline_call; reflexivity
     |rewrite blocking_call; destruct (tcpip_ran s); reflexivity]).
Qed.

(** X6.  A blocking call that completes returns what its body left in
    the request.  Once the request was allocated, run by the tcpip thread
    and the wait ended on the request's own event, Bind, Connect, Shutdown
    and Close return the body's error code, Socket and Listen the body's
    pcb, and Send the body's error code with, on ERR_OK, the body's count
    stored through [sent] and 0 otherwise. *)
Theorem completed_call_returns_output s m0 w :
  ExAllocateFromNPagedLookasideList s = Some m0 ->
  tcpip_ran s = true ->
  KeWaitForMultipleObjects s = STATUS_WAIT_0 ->
  let m := KeInitializeEvent m0 in
  (forall arg,
     fst (LibTCPSocket s arg w) =
     Output_NewPcb (fst (LibTCPSocketCallback (Input_Socket m arg) w))) /\
  (forall ipaddr port,
     fst (LibTCPBind s ipaddr port w) =
     Output_Error (fst (LibTCPBindCallback (Input_Address m ipaddr (u16_t port)) w))) /\
  (forall backlog,
     fst (LibTCPListen s backlog w) =
     Output_NewPcb (fst (LibTCPListenCallback (Input_Listen m (backlog mod 2 ^ 8)) w))) /\
  (forall data len safe,
     let out := fst (LibTCPSendCallback (Input_Send m data (u16_t len)) w) in
     fst (LibTCPSend s data len safe w) =
     (Output_Error out,
      Some (if err_eqb (Output_Error out) ERR_OK
            then UINT (Output_Information out) else 0))) /\
  (forall ipaddr port,
     fst (LibTCPConnect s ipaddr port w) =
     Output_Error (fst (LibTCPConnectCallback (Input_Address m ipaddr (u16_t port)) w))) /\
  (forall shut_rx shut_tx,
     fst (LibTCPShutdown s shut_rx shut_tx w) =
     Output_Error (fst (LibTCPShutdownCallback (Input_Shutdown m shut_rx shut_tx) w))) /\
  (forall safe callback,
     fst (LibTCPClose s safe callback w) =
     Output_Error (fst (LibTCPCloseCallback (Input_Close m callback) w))).
Proof.
  intros Ha Hran Hw m.
  assert (Hwait : WaitForEventSafely s = true)
    by (unfold WaitForEventSafely; rewrite Hw; apply Z.eqb_refl).
  unfold LibTCPSocket, LibTCPBind, LibTCPListen, LibTCPSend, LibTCPConnect,
    LibTCPShutdown, LibTCPClose.
  rewrite Ha, Hwait. fold m.
  repeat split; intros;
    try (rewrite blocking_call, Hran; reflexivity);
    (destruct (truth safe);
     [rewrite inline_call; reflexivity
     |rewrite blocking_call, Hran; reflexivity]).
Qed.

(** *** Closed for good *)

(** X24.  Once the pcb pointer is NULL, whatever operation bodies, lwIP
    callbacks and reads follow, the Bind, Connect, Send and Shutdown bodies
    set ERR_CLSD and the Listen body hands back a NULL pcb. *)
Theorem severed_for_good ops msg w :
  SocketContext (Conn w) = None ->
  Output_Error (fst (LibTCPBindCallback msg (run ops w))) = ERR_CLSD /\
  Output_Error (fst (LibTCPConnectCallback msg (run ops w))) = ERR_CLSD /\
  Output_Error (fst (LibTCPSendCallback msg (run ops w))) = ERR_CLSD /\
  Output_Error (fst (LibTCPShutdownCallback msg (run ops w))) = ERR_CLSD /\
  Output_NewPcb (fst (LibTCPListenCallback msg (run ops w))) = None.
Proof.
  intros Hnull.
  assert (H : SocketContext (Conn (run ops w)) = None).
  { destruct (run_never_reopened ops w) as (_ & _ & P).
    destruct (SocketContext (Conn (run ops w))) as [pcb|]; trivial.
    rewrite (P pcb eq_refl) in Hnull. discriminate. }
  unfold LibTCPBindCallback, LibTCPConnectCallback, LibTCPSendCallback,
    LibTCPShutdownCallback, LibTCPListenCallback. exec.
  rewrite H. repeat split.
Qed.


(** *** Data first, then the end *)

(** X22.  An error that arrives while data is queued is seen after the
    data.  With a non-empty queue whose entries all have unread bytes, after
    the error callback a read with a buffer that holds all pending bytes
    returns STATUS_SUCCESS with all of them, and every read after it
    returns the translated error with zero bytes. *)
Theorem error_is_read_after_data err w n :
  PacketQueue (Conn w) <> [] ->
  Forall QueueFacts.entry_live (PacketQueue (Conn w)) ->
  Z.of_nat (length (QueueFacts.pending (PacketQueue (Conn w)))) <= n < 2 ^ 32 ->
  let w' := snd (InternalErrorEventHandler (Some Connection_ptr) err w) in
  exists r,
    Queue.LibTCPGetDataFromConnectionQueue (Conn w') n = Some r /\
    Queue.Status r = STATUS_SUCCESS /\
    Queue.RecvBuffer r = QueueFacts.pending (PacketQueue (Conn w)) /\
    forall m,
      Queue.LibTCPGetDataFromConnectionQueue (Queue.Connection r) m =
      Some (Queue.mkResult (TCPTranslateError err) 0 [] (Queue.Connection r) [] []).
Proof.
  intros Hne Hlive Hn w'.
  assert (Hc : Conn w' = set_ReceiveShutdown (Conn w) true (TCPTranslateError err)).
  { unfold w', InternalErrorEventHandler. exec.
    destruct (PacketQueue (Conn w)); [congruence | reflexivity]. }
  rewrite Hc.
  destruct (QueueMore.drain_then_status
              (set_ReceiveShutdown (Conn w) true (TCPTranslateError err)) n Hne Hlive Hn)
    as (r & Hr & St & B & _ & After).
  exists r. repeat split; trivial.
Qed.

(** X23.  The end of the stream is seen after the data.  After the
    receive callback reported the peer's close (no pbuf, ERR_OK), a read of
    an empty queue returns STATUS_SUCCESS with zero bytes; with a non-empty
    queue whose entries all have unread bytes, a read with a buffer that
    holds all pending bytes returns them, and every read after it returns
    STATUS_SUCCESS with zero bytes. *)
Theorem close_is_read_after_data pcb w n :
  Forall QueueFacts.entry_live (PacketQueue (Conn w)) ->
  Z.of_nat (length (QueueFacts.pending (PacketQueue (Conn w)))) <= n < 2 ^ 32 ->
  let w' := snd (InternalRecvEventHandler (Some Connection_ptr) pcb None ERR_OK w) in
  exists r,
    Queue.LibTCPGetDataFromConnectionQueue (Conn w') n = Some r /\
    Queue.Status r = STATUS_SUCCESS /\
    Queue.RecvBuffer r = QueueFacts.pending (PacketQueue (Conn w)) /\
    forall m,
      Queue.LibTCPGetDataFromConnectionQueue (Queue.Connection r) m =
      Some (Queue.mkResult STATUS_SUCCESS 0 [] (Queue.Connection r) [] []).
Proof.
  intros Hlive Hn w'.
  assert (Hc : Conn w' = set_ReceiveShutdown (Conn w) true STATUS_SUCCESS).
  { unfold w', InternalRecvEventHandler. exec.
    destruct (SocketContext (Conn w)); reflexivity. }
  rewrite Hc.
  assert (Hq : PacketQueue (Conn w) = [] \/ PacketQueue (Conn w) <> [])
    by (destruct (PacketQueue (Conn w)); [left | right]; congruence).
  destruct Hq as [Hq | Hq].
  - unfold Queue.LibTCPGetDataFromConnectionQueue. cbn. rewrite Hq.
    eexists; split; [reflexivity|]. cbn. rewrite Hq. repeat split.
  - destruct (QueueMore.drain_then_status
                (set_ReceiveShutdown (Conn w) true STATUS_SUCCESS) n Hq Hlive Hn)
      as (r & Hr & St & B & _ & After).
    exists r. repeat split; trivial.
Qed.

End Facts.

(** *** Closed instances *)


Lemma Send_writes_whole_request_witness :
  let w := Sample.world Sample.open ESTABLISHED 20 ERR_OK in
  let msg := Input_Send Sample.blank Sample.ten_bytes 10 in
  (SocketContext (Conn w) = Some 1%nat /\ SendShutdown (Conn w) = false /\
   0 < u16_t (snd_buf (Eng w) 1%nat) /\
   UINT (Input_DataLength msg) <= u16_t (snd_buf (Eng w) 1%nat)) /\
  Trace (snd (LibTCPSendCallback msg w)) =
    [Called (c_tcp_write 1%nat Sample.ten_bytes 10 1); Called (c_tcp_output 1%nat)].
Proof.
  intros w msg.
  assert (Hpos : 0 < u16_t (snd_buf (Eng w) 1%nat)) by (cbn; lia).
  assert (Hroom : UINT (Input_DataLength msg) <= u16_t (snd_buf (Eng w) 1%nat))
    by (cbn; lia).
  split; [split; [reflexivity | split; [reflexivity | split; [exact Hpos | exact Hroom]]]|].
  exact (proj1 (Send_writes_whole_request (lwip := Sample.lwip) msg w 1%nat
                  eq_refl eq_refl Hpos Hroom)).
Defined.

Lemma Send_body_bounds_witness :
  let w := Sample.world Sample.open ESTABLISHED 4 ERR_OK in
  let msg := Input_Send Sample.blank Sample.ten_bytes 10 in
  let r := LibTCPSendCallback msg w in
  Output_Error (fst r) = ERR_OK /\
  exists pcb,
    SocketContext (Conn w) = Some pcb /\
    0 <= Output_Information (fst r) <= u16_t (snd_buf (Eng w) pcb) /\
    Output_Information (fst r) <= UINT (Input_DataLength msg).
Proof.
  intros w msg r. split; [reflexivity|].
  exact (proj2 (proj2 (proj2 (Send_body_bounds (lwip := Sample.lwip) msg w))) eq_refl).
Defined.

Lemma Send_after_write_shutdown_witness :
  let w := Sample.world Sample.open ESTABLISHED 4 ERR_OK in
  let msg := Input_Shutdown Sample.blank 0 1 in
  let msg' := Input_Send Sample.blank Sample.ten_bytes 10 in
  let r := LibTCPShutdownCallback (nt := Sample.nt) msg w in
  (truth (Input_shut_tx msg) = true /\ Output_Error (fst r) = ERR_OK) /\
  LibTCPSendCallback msg' (snd r) = (KeSetEvent (set_Error msg' ERR_CLSD), snd r).
Proof.
  intros w msg msg' r. split; [split; reflexivity|].
  exact (Send_after_write_shutdown (nt := Sample.nt) (lwip := Sample.lwip)
           msg msg' w eq_refl eq_refl).
Defined.

Lemma read_after_read_shutdown_witness :
  let w := Sample.world Sample.open ESTABLISHED 4 ERR_OK in
  let msg := Input_Shutdown Sample.blank 1 0 in
  let r := LibTCPShutdownCallback (nt := Sample.nt) msg w in
  (truth (Input_shut_rx msg) = true /\ Output_Error (fst r) = ERR_OK /\
   PacketQueue (Conn w) = []) /\
  Queue.LibTCPGetDataFromConnectionQueue (nt := Sample.nt) (Conn (snd r)) 10 =
    Some (Queue.mkResult 3221225768 0 [] (Conn (snd r)) [] []).
Proof.
  intros w msg r. split; [repeat split|].
  exact (proj1 (proj2 (read_after_read_shutdown (nt := Sample.nt) (lwip := Sample.lwip)
                         msg w 10 eq_refl eq_refl)) eq_refl).
Defined.

Lemma Close_twice_witness :
  let w := Sample.world Sample.three_segments ESTABLISHED 4 ERR_OK in
  let r := LibTCPCloseCallback (Input_Close Sample.blank 0) w in
  Output_Error (fst r) = ERR_OK /\
  LibTCPCloseCallback (Input_Close Sample.blank 1) (snd r) =
    (KeSetEvent (set_Error (Input_Close Sample.blank 1) ERR_OK), snd r).
Proof.
  intros w r. split; [reflexivity|].
  exact (proj2 (proj2 (Close_twice (lwip := Sample.lwip) (Input_Close Sample.blank 0)
                         (Input_Close Sample.blank 1) w eq_refl))).
Defined.


Lemma allocation_failure_witness :
  let w := Sample.world Sample.open ESTABLISHED 4 ERR_OK in
  ExAllocateFromNPagedLookasideList Sample.exhausted = None /\
  LibTCPSend (nt := Sample.nt) Sample.exhausted Sample.ten_bytes 10 0 w =
    ((ERR_MEM, None), w).
Proof.
  intros w. split; [reflexivity|].
  exact (proj1 (proj2 (proj2 (proj2 (allocation_failure (nt := Sample.nt)
                                       (lwip := Sample.lwip) Sample.exhausted w eq_refl))))
           Sample.ten_bytes 10 0).
Defined.

Lemma Connect_registers_first_witness :
  let w := Sample.world Sample.open CLOSED 0 ERR_OK in
  let msg := Input_Address Sample.blank 167772161 80 in
  let r := LibTCPConnectCallback msg w in
  SocketContext (Conn w) = Some 1%nat /\
  Trace (snd r) =
    [Called (c_tcp_recv 1%nat); Called (c_tcp_sent 1%nat);
     Called (c_tcp_connect 1%nat 167772161 20480)] /\
  Output_Error (fst r) = ERR_INPROGRESS.
Proof.
  intros w msg r. split; [reflexivity|].
  exact (proj2 (proj2 (Connect_registers_first (lwip := Sample.lwip) msg w))
           1%nat eq_refl).
Defined.

Lemma returned_pcb_is_registered_witness :
  let w := Sample.world_with_pcb Sample.open in
  let arg := Some Connection_ptr in
  (ExAllocateFromNPagedLookasideList Sample.completes = Some Sample.blank /\
   tcpip_ran Sample.completes = true /\
   fst (LibTCPSocket (nt := Sample.nt) Sample.completes arg w) = Some 7%nat) /\
  Trace (snd (LibTCPSocket (nt := Sample.nt) Sample.completes arg w)) =
    [Called c_tcp_new; Called (c_tcp_arg 7%nat arg); Called (c_tcp_err 7%nat)].
Proof.
  intros w arg. split; [repeat split|].
  exact (proj1 (returned_pcb_is_registered (nt := Sample.nt) (lwip := Sample.lwip)
                  Sample.completes Sample.blank w eq_refl eq_refl)
           arg 7%nat eq_refl).
Defined.

Lemma shutdown_flags_stay_set_witness :
  let w := Sample.world Sample.shut_both_ways ESTABLISHED 4 ERR_OK in
  (ReceiveShutdown (Conn w) = true /\ SendShutdown (Conn w) = true) /\
  ReceiveShutdown (Conn (run (nt := Sample.nt) Sample.a_run w)) = true /\
  SendShutdown (Conn (run (nt := Sample.nt) Sample.a_run w)) = true.
Proof.
  intros w. split; [split; reflexivity|].
  destruct (shutdown_flags_stay_set (nt := Sample.nt) (lwip := Sample.lwip)
              Sample.a_run w) as [R S].
  split; [exact (R eq_refl) | exact (S eq_refl)].
Defined.

Lemma pcb_pointer_never_comes_back_witness :
  let w := Sample.world Sample.severed ESTABLISHED 4 ERR_OK in
  SocketContext (Conn w) = None /\
  SocketContext (Conn (run (nt := Sample.nt) Sample.a_run w)) = None.
Proof.
  intros w. split; [reflexivity|].
  exact (proj1 (pcb_pointer_never_comes_back (nt := Sample.nt) (lwip := Sample.lwip)
                  Sample.a_run w) eq_refl).
Defined.

Lemma b_run_arrivals_ok : Forall arrival_ok Sample.b_run.
Proof. repeat constructor; cbn; lia. Defined.

Lemma late_callbacks_closed : Forall socket_closed Sample.late_callbacks.
Proof. repeat constructor. Defined.

Lemma late_callbacks_are_ignored_witness :
  let w := Sample.world Sample.three_segments ESTABLISHED 4 ERR_OK in
  let w' := run (nt := Sample.nt) Sample.late_callbacks w in
  Forall socket_closed Sample.late_callbacks /\
  Conn w' = Conn w /\
  Trace w' =
    [Called (c_pbuf_free (Sample.bytes_of_third)); Called (c_pbuf_free Sample.ten_bytes)].
Proof.
  intros w w'. split; [apply late_callbacks_closed|].
  destruct (late_callbacks_are_ignored (nt := Sample.nt) (lwip := Sample.lwip)
              Sample.late_callbacks w late_callbacks_closed)
    as ((Hc & Ht & _) & _).
  split; [exact Hc | exact Ht].
Defined.

(** After [Sample.b_run] four entries are queued, and a read of 10 goes
    through the loop. *)
Lemma reads_never_fail_assertions_witness :
  let w := Sample.world Sample.three_segments ESTABLISHED 4 ERR_OK in
  let c := Conn (run (nt := Sample.nt) Sample.b_run w) in
  (Forall arrival_ok Sample.b_run /\
   Forall QueueFacts.entry_live (PacketQueue (Conn w)) /\ 0 < 10 < 2 ^ 32) /\
  List.length (PacketQueue c) = 4%nat /\
  Forall QueueFacts.entry_live (PacketQueue c) /\
  exists r,
    Queue.LibTCPGetDataFromConnectionQueue (nt := Sample.nt) c 10 = Some r /\
    Queue.Failed r = [] /\
    Queue.Status r = 0 /\ 1 <= Queue.Received r <= 10.
Proof.
  intros w c.
  assert (Hlen : 0 < 10 < 2 ^ 32) by lia.
  assert (Hne : PacketQueue c <> []) by discriminate.
  split; [split; [apply b_run_arrivals_ok
                 | split; [apply QueueFacts.three_segments_live | exact Hlen]]|].
  split; [reflexivity|].
  destruct (reads_never_fail_assertions (nt := Sample.nt) (lwip := Sample.lwip)
              Sample.b_run w 10 b_run_arrivals_ok
              QueueFacts.three_segments_live Hlen)
    as (Hl & r & Hr & Hf & Hgo).
  split; [exact Hl|].
  exists r. split; [exact Hr|]. split; [exact Hf|]. exact (Hgo Hne).
Defined.

Lemma severed_for_good_witness :
  let w := Sample.world Sample.severed ESTABLISHED 4 ERR_OK in
  SocketContext (Conn w) = None /\
  Output_Error (fst (LibTCPSendCallback (Input_Send Sample.blank Sample.ten_bytes 10)
                       (run (nt := Sample.nt) Sample.a_run w))) = ERR_CLSD.
Proof.
  intros w. split; [reflexivity|].
  exact (proj1 (proj2 (proj2 (severed_for_good (nt := Sample.nt) (lwip := Sample.lwip)
                                Sample.a_run
                                (Input_Send Sample.blank Sample.ten_bytes 10)
                                w eq_refl)))).
Defined.


Lemma three_segments_fit :
  Z.of_nat (length (QueueFacts.pending (PacketQueue Sample.three_segments)))
  <= 20 < 2 ^ 32.
Proof. cbn. lia. Defined.

Lemma error_is_read_after_data_witness :
  let w := Sample.world Sample.three_segments ESTABLISHED 4 ERR_OK in
  let w' := snd (InternalErrorEventHandler (nt := Sample.nt) (Some Connection_ptr) ERR_RST w) in
  (PacketQueue (Conn w) <> [] /\
   Forall QueueFacts.entry_live (PacketQueue (Conn w)) /\
   Z.of_nat (length (QueueFacts.pending (PacketQueue (Conn w)))) <= 20 < 2 ^ 32) /\
  exists r,
    Queue.LibTCPGetDataFromConnectionQueue (nt := Sample.nt) (Conn w') 20 = Some r /\
    Queue.RecvBuffer r = QueueFacts.pending (PacketQueue (Conn w)) /\
    Queue.LibTCPGetDataFromConnectionQueue (nt := Sample.nt) (Queue.Connection r) 20 =
      Some (Queue.mkResult 3221226013 0 [] (Queue.Connection r) [] []).
Proof.
  intros w w'.
  assert (Hne : PacketQueue (Conn w) <> []) by discriminate.
  split; [split; [exact Hne
                 | split; [apply QueueFacts.three_segments_live
                          | exact three_segments_fit]]|].
  destruct (error_is_read_after_data (nt := Sample.nt) (lwip := Sample.lwip)
              ERR_RST w 20 Hne QueueFacts.three_segments_live three_segments_fit)
    as (r & Hr & _ & Hb & After).
  exists r. split; [exact Hr|]. split; [exact Hb | exact (After 20)].
Defined.

Lemma close_is_read_after_data_witness :
  let w := Sample.world Sample.three_segments ESTABLISHED 4 ERR_OK in
  let w' := snd (InternalRecvEventHandler (nt := Sample.nt) (Some Connection_ptr)
                   1%nat None ERR_OK w) in
  (Forall QueueFacts.entry_live (PacketQueue (Conn w)) /\
   Z.of_nat (length (QueueFacts.pending (PacketQueue (Conn w)))) <= 20 < 2 ^ 32) /\
  exists r,
    Queue.LibTCPGetDataFromConnectionQueue (nt := Sample.nt) (Conn w') 20 = Some r /\
    Queue.RecvBuffer r = QueueFacts.pending (PacketQueue (Conn w)) /\
    Queue.LibTCPGetDataFromConnectionQueue (nt := Sample.nt) (Queue.Connection r) 20 =
      Some (Queue.mkResult 0 0 [] (Queue.Connection r) [] []).
Proof.
  intros w w'.
  split; [split; [apply QueueFacts.three_segments_live | exact three_segments_fit]|].
  destruct (close_is_read_after_data (nt := Sample.nt) (lwip := Sample.lwip)
              1%nat w 20 QueueFacts.three_segments_live three_segments_fit)
    as (r & Hr & _ & Hb & After).
  exists r. split; [exact Hr|]. split; [exact Hb | exact (After 20)].
Defined.

(** The termination event ends the wait of a Send whose body already ran:
    the caller gets ERR_CLSD and 0, and lwIP got the data. *)
Lemma effect_does_not_wait_witness :
  let s := mkSchedule (Some Sample.blank) true 1 in
  let w := Sample.world Sample.open ESTABLISHED 20 ERR_OK in
  ExAllocateFromNPagedLookasideList s = Some Sample.blank /\
  fst (LibTCPSend (nt := Sample.nt) s Sample.ten_bytes 10 0 w) = (ERR_CLSD, Some 0) /\
  snd (LibTCPSend (nt := Sample.nt) s Sample.ten_bytes 10 0 w) =
    snd (LibTCPSendCallback
           (Input_Send (KeInitializeEvent Sample.blank) Sample.ten_bytes (u16_t 10)) w).
Proof.
  intros s w. split; [reflexivity|]. split; [reflexivity|].
  exact (proj1 (proj2 (proj2 (proj2 (effect_does_not_wait (nt := Sample.nt)
                                       (lwip := Sample.lwip) s Sample.blank w eq_refl))))
           Sample.ten_bytes 10 0).
Defined.

Lemma completed_call_returns_output_witness :
  let w := Sample.world Sample.open CLOSED 0 ERR_USE in
  (ExAllocateFromNPagedLookasideList Sample.completes = Some Sample.blank /\
   tcpip_ran Sample.completes = true /\
   KeWaitForMultipleObjects Sample.completes = STATUS_WAIT_0 (NtDriver := Sample.nt)) /\
  fst (LibTCPBind (nt := Sample.nt) Sample.completes 167772161 80 w) =
    Output_Error
      (fst (LibTCPBindCallback
              (Input_Address (KeInitializeEvent Sample.blank) 167772161 (u16_t 80)) w)).
Proof.
  intros w. split; [repeat split|].
  exact (proj1 (proj2 (completed_call_returns_output (nt := Sample.nt)
                         (lwip := Sample.lwip) Sample.completes Sample.blank w
                         eq_refl eq_refl eq_refl))
           167772161 80).
Defined.

End BridgeMore.
